(** * EIA-860 generator inventory parsing: [decade-trends/parse_generators.py]

    A shallow embedding of the three pandas pipelines [parse_generators],
    [parse_proposed] and [parse_retired], of the column-label normalisation
    they inline, and of the fuel table [energy_source_mapping], followed by
    the properties the specification states about them.

    Conventions of the embedding.
    - A Python [str] is a [string] whose characters are code points below
      256; [str.lower] is exact on that range.
    - A Python [dict] is a [gmap]; a dict display or comprehension inserts
      its items from left to right.
    - A [DataFrame] is its index plus its labelled columns, in order; labels
      may repeat, as pandas allows.
    - A cell is a string, an integer, a float or NaN.  Floats are idealised:
      a finite float is the rational it denotes, and the rounding error of
      float64 arithmetic and the range of int64 are not represented.
    - A call either returns, raises, or selects a repeated label as if it
      were one Series; the last case is outside the embedding ([Ambiguous]). *)

From Stdlib Require Import Ascii String QArith Qround Lqa.
From stdpp Require Import gmap strings list pretty.

Local Open Scope string_scope.
Local Open Scope Z_scope.

(** ** Python strings *)

Module Py.

(** [str.lower] on one code point below 256: the letters A-Z and the
    Latin-1 capitals (all of 0xC0-0xDE but the multiplication sign 0xD7)
    move up by 32. *)
Definition lower_char (a : ascii) : ascii :=
  let n := N_of_ascii a in
  if ((65 <=? n) && (n <=? 90)
      || (192 <=? n) && (n <=? 222) && negb (n =? 215))%N
  then ascii_of_N (n + 32) else a.

Fixpoint lower (s : string) : string :=
  match s with
  | EmptyString => EmptyString
  | String a s' => String (lower_char a) (lower s')
  end.

(** [s.replace(old, new)] for one-character [old] and [new]. *)
Fixpoint replace_char (old new : ascii) (s : string) : string :=
  match s with
  | EmptyString => EmptyString
  | String a s' =>
      String (if Ascii.eqb a old then new else a) (replace_char old new s')
  end.

(** [s.replace(old, '')] for a one-character [old]. *)
Fixpoint remove_char (old : ascii) (s : string) : string :=
  match s with
  | EmptyString => EmptyString
  | String a s' =>
      if Ascii.eqb a old then remove_char old s'
      else String a (remove_char old s')
  end.

(** [s.split(sep)[0]] for a non-empty [sep]: what precedes the first
    occurrence of [sep], the whole of [s] when there is none. *)
Fixpoint split_head (sep s : string) : string :=
  match s with
  | EmptyString => EmptyString
  | String a s' =>
      if String.prefix sep s then EmptyString
      else String a (split_head sep s')
  end.

(** A dict built by inserting [items] from left to right: a later item
    with the same key replaces the earlier one. *)
Definition dict {V} (items : list (string * V)) : gmap string V :=
  foldl (fun m kv => <[kv.1 := kv.2]> m) ∅ items.

(** [{c: f(c) for c in keys}]. *)
Definition dict_comp {V} (f : string -> V) (keys : list string)
  : gmap string V :=
  dict (map (fun c => (c, f c)) keys).

End Py.

(** ** Column labels *)

(** The expression
    [c.lower().replace(' ', '_').replace('?', '').replace('/', '_').split('_(')[0]]
    shared by the three pipelines. *)
Definition normalize_label (c : string) : string :=
  Py.split_head "_("
    (Py.replace_char "/" "_"
       (Py.remove_char "?"
          (Py.replace_char " " "_" (Py.lower c)))).

(** The value the first [rename] of each pipeline gives to label [c]. *)
Definition operating_label (year : Z) (c : string) : string :=
  if bool_decide (year = 2010) then Py.lower c else normalize_label c.

Definition proposed_label (year : Z) (c : string) : string :=
  normalize_label c.

Definition retired_label (year : Z) (c : string) : string :=
  normalize_label c.

(** The rename batch of [parse_generators] and [parse_proposed]. *)
Definition rename_batch : gmap string string :=
  Py.dict [ ("nameplate", "nameplate_capacity");
            ("sector_name", "sector");
            ("sector", "sector_code") ].

(** The rename batch of [parse_retired]. *)
Definition rename_batch_retired : gmap string string :=
  Py.dict [ ("sector_name", "sector");
            ("sector", "sector_code") ].

(** The renames of the [year <= 2000] branch of [parse_retired]. *)
Definition rename_pre2001 : gmap string string :=
  Py.dict [ ("operating_month", "operating_year");
            ("operating_year", "operating_month");
            ("retirement_month", "retirement_year");
            ("retirement_year", "retirement_month");
            ("existing_nameplate", "nameplate_capacity");
            ("existing_energy_source_1", "energy_source_1");
            ("existing_status", "status") ].

Arguments rename_batch : simpl never.
Arguments rename_batch_retired : simpl never.
Arguments rename_pre2001 : simpl never.

(** What [DataFrame.rename(columns=mapper)] does to one label. *)
Definition relabel (mapper : gmap string string) (c : string) : string :=
  default c (mapper !! c).

(** ** Cells, Series and exceptions *)

Inductive value : Type :=
  | VStr (s : string)
  | VInt (z : Z)
  | VFloat (q : Q)
  | VNaN.

#[global] Instance Q_eq_dec : EqDecision Q.
Proof. solve_decision. Defined.

#[global] Instance value_eq_dec : EqDecision value.
Proof. solve_decision. Defined.

(** A Series is the list of its cells. *)
Abbreviation Series := (list value).

Inductive exn : Type :=
  | KeyError
  | AttributeError
  | TypeError
  | ValueError
  | AssertionError.

(** The outcome of a call.  [Ambiguous] stands for the selection of a label
    that several columns carry where the code goes on as if it had a Series:
    pandas hands back a sub-frame there, which is not followed further. *)
Inductive result (A : Type) : Type :=
  | Ok (a : A)
  | Raise (e : exn)
  | Ambiguous.

Arguments Ok {A} a.
Arguments Raise {A} e.
Arguments Ambiguous {A}.

#[global] Instance result_ret : MRet result := fun A a => Ok a.

#[global] Instance result_bind : MBind result := fun A B k m =>
  match m with
  | Ok a => k a
  | Raise e => Raise e
  | Ambiguous => Ambiguous
  end.

(** What the interpreter supplies and the embedding leaves open: the text
    of a float, and the parsers behind [float(s)] and [int(s)] ([None] when
    they raise [ValueError]). *)
Class Runtime : Type := {
  str_of_float : Q -> string;
  float_of_str : string -> option value;
  int_of_str : string -> option Z;
}.

(** ** Arithmetic on idealised floats *)

(** [numpy.rint]: the nearest integer, a tie going to the even one. *)
Definition round_half_even (q : Q) : Z :=
  let f := Qfloor q in
  match (q - inject_Z f ?= 1 # 2)%Q with
  | Lt => f
  | Gt => f + 1
  | Eq => if Z.even f then f else f + 1
  end.

(** The float-to-integer cast drops the fraction (towards zero). *)
Definition trunc (q : Q) : Z := Z.quot (Qnum q) (Zpos (Qden q)).

(** The rational a numeric cell denotes. *)
Definition number (v : value) : option Q :=
  match v with
  | VInt z => Some (inject_Z z)
  | VFloat q => Some q
  | VStr _ | VNaN => None
  end.

(** ** Series operations, cell by cell *)

Section Cells.
Context `{Runtime}.

(** [str(v)], the cell-wise action of [astype('str')]. *)
Definition str (v : value) : string :=
  match v with
  | VStr s => s
  | VInt z => pretty z
  | VFloat q => str_of_float q
  | VNaN => "nan"
  end.

(** [left + v] for a string [left]: a missing [v] is skipped by the masked
    fallback of object arithmetic, a number raises. *)
Definition str_add (left : string) (v : value) : result value :=
  match v with
  | VStr s => Ok (VStr (left +:+ s))
  | VNaN => Ok VNaN
  | VInt _ | VFloat _ => Raise TypeError
  end.

(** [v / 1000]. *)
Definition truediv_1000 (v : value) : result value :=
  match v with
  | VInt z => Ok (VFloat (inject_Z z / 1000))
  | VFloat q => Ok (VFloat (q / 1000))
  | VNaN => Ok VNaN
  | VStr _ => Raise TypeError
  end.

(** [replace(' ', np.nan)]. *)
Definition replace_blank (v : value) : value :=
  if bool_decide (v = VStr " ") then VNaN else v.

(** [astype(float)]. *)
Definition to_float (v : value) : result value :=
  match v with
  | VStr s =>
      match float_of_str s with
      | Some x => Ok x
      | None => Raise ValueError
      end
  | VInt z => Ok (VFloat (inject_Z z))
  | VFloat q => Ok (VFloat q)
  | VNaN => Ok VNaN
  end.

(** [round()]. *)
Definition round_cell (v : value) : result value :=
  match v with
  | VStr _ => Raise TypeError
  | VInt z => Ok (VInt z)
  | VFloat q => Ok (VFloat (inject_Z (round_half_even q)))
  | VNaN => Ok VNaN
  end.

(** [astype(int)]. *)
Definition to_int (v : value) : result value :=
  match v with
  | VStr s =>
      match int_of_str s with
      | Some z => Ok (VInt z)
      | None => Raise ValueError
      end
  | VInt z => Ok (VInt z)
  | VFloat q => Ok (VInt (trunc q))
  | VNaN => Raise ValueError
  end.

Definition astype_str (s : Series) : list string := map str s.

Definition add_series (left : list string) (right : Series)
  : result Series :=
  mapM (fun p => str_add p.1 p.2) (zip left right).

Definition astype_float (s : Series) : result Series := mapM to_float s.
Definition round_series (s : Series) : result Series := mapM round_cell s.
Definition astype_int (s : Series) : result Series := mapM to_int s.

(** [s == x] and [s.isin(xs)] for string operands. *)
Definition eq_str (x : string) (s : Series) : list bool :=
  map (fun v => bool_decide (v = VStr x)) s.

Definition isin (xs : list string) (s : Series) : list bool :=
  map (fun v => bool_decide (v ∈ map VStr xs)) s.

End Cells.

(** ** Data frames *)

Record DataFrame : Type := {
  index : list value;
  columns : list (string * Series);
}.

Definition labels (df : DataFrame) : list string := map fst (columns df).

Definition has_label (c : string) (col : string * Series) : bool :=
  bool_decide (col.1 = c).

(** The columns that carry label [c], in frame order. *)
Definition select (c : string) (df : DataFrame) : list (string * Series) :=
  List.filter (has_label c) (columns df).

(** [df.c] and [df[c]] where a Series is expected. *)
Definition pick (missing : exn) (c : string) (df : DataFrame)
  : result Series :=
  match select c df with
  | [] => Raise missing
  | [col] => Ok col.2
  | _ :: _ :: _ => Ambiguous
  end.

Definition getattr : string -> DataFrame -> result Series :=
  pick AttributeError.
Definition getitem : string -> DataFrame -> result Series :=
  pick KeyError.

(** The Series found under label [c], in frame order. *)
Definition data (c : string) (df : DataFrame) : list Series :=
  map snd (select c df).

(** [df.rename(columns=mapper)]: every label is looked up in the same
    [mapper], once. *)
Definition rename (mapper : gmap string string) (df : DataFrame)
  : DataFrame :=
  {| index := index df;
     columns := map (fun col => (relabel mapper col.1, col.2)) (columns df) |}.

(** [df[c] = s], also the effect of [df.c = s] on an existing column and of
    [assign]: every column labelled [c] takes the data, a new column is
    appended when there is none. *)
Definition setitem (c : string) (s : Series) (df : DataFrame) : DataFrame :=
  {| index := index df;
     columns :=
       if bool_decide (c ∈ labels df)
       then map (fun col => if has_label c col then (c, s) else col)
                (columns df)
       else columns df ++ [(c, s)] |}.

(** [df[c] = v] for a scalar [v], repeated down the rows. *)
Definition setitem_scalar (c : string) (v : value) (df : DataFrame)
  : DataFrame :=
  setitem c (replicate (length (index df)) v) df.

(** [df[[c1, ..., cn]]]. *)
Definition project (cs : list string) (df : DataFrame) : result DataFrame :=
  if forallb (fun c => bool_decide (c ∈ labels df)) cs
  then Ok {| index := index df;
             columns := flat_map (fun c => select c df) cs |}
  else Raise KeyError.

(** [df.set_index(c)]. *)
Definition set_index (c : string) (df : DataFrame) : result DataFrame :=
  s ← getitem c df;
  Ok {| index := s;
        columns := List.filter (fun col => negb (has_label c col))
                     (columns df) |}.

(** The entries of [l] at the positions where [mask] holds. *)
Fixpoint keep {A} (mask : list bool) (l : list A) : list A :=
  match mask, l with
  | b :: mask', x :: l' => if b then x :: keep mask' l' else keep mask' l'
  | _, _ => []
  end.

(** [df[mask]] for a boolean Series on the frame's own index. *)
Definition filter_rows (mask : list bool) (df : DataFrame) : DataFrame :=
  {| index := keep mask (index df);
     columns := map (fun col => (col.1, keep mask col.2)) (columns df) |}.

(** ** The fuel table *)

Definition energy_source_items : list (string * string) :=
  [ ("NG", "natural gas");
    ("BIT", "coal");
    ("SUB", "coal");
    ("NUC", "nuclear");
    ("WAT", "hydro");
    ("WND", "wind");
    ("RFO", "oil");
    ("DFO", "oil");
    ("LIG", "coal");
    ("GEO", "other");
    ("PC", "oil");
    ("MSW", "by-products");
    ("WDS", "by-products");
    ("LFG", "by-products");
    ("WH", "other");
    ("WC", "coal");
    ("KER", "oil");
    ("SUN", "solar");
    ("SGC", "coal");
    ("JF", "oil");
    ("OBL", "by-products");
    ("AB", "by-products");
    ("WO", "oil");
    ("TDF", "by-products");
    ("OBS", "by-products");
    ("MWH", "storage");
    ("OBG", "by-products");
    ("OG", "natural gas");
    ("SGP", "oil");
    ("RC", "coal");
    ("OTH", "other");
    ("PG", "oil");
    ("COL", "coal");
    ("PET", "oil");
    ("UNK", "other");
    ("GAS", "natural gas");
    ("OO", "other");
    ("WOC", "other");
    ("REF", "by-products");
    ("MF", "other") ].

Definition energy_source_mapping : gmap string string :=
  Py.dict energy_source_items.

Arguments energy_source_mapping : simpl never.

(** The ten categories of the data model. *)
Definition categories : list string :=
  [ "natural gas"; "coal"; "nuclear"; "hydro"; "wind"; "oil"; "other";
    "by-products"; "solar"; "storage" ].

(** The cell-wise action of [replace(energy_source_mapping)]: a string that
    is a key of the table becomes its entry, everything else stays. *)
Definition classify (v : value) : value :=
  match v with
  | VStr s => VStr (default s (energy_source_mapping !! s))
  | _ => v
  end.

Definition replace_mapping (s : Series) : Series := map classify s.

(** ** The pipelines

    Each takes the frame [pd.read_excel] returned for the year's sheet. *)

Section Pipelines.
Context `{Runtime}.

(** The two chained [rename]s that open every pipeline. *)
Definition normalize_columns (label : string -> string)
    (batch : gmap string string) (sheet : DataFrame) : DataFrame :=
  rename batch (rename (Py.dict_comp label (labels sheet)) sheet).

(** The frame each pipeline works on once its columns are renamed. *)
Definition operating_frame (year : Z) (sheet : DataFrame) : DataFrame :=
  normalize_columns (operating_label year) rename_batch sheet.

Definition proposed_frame (year : Z) (sheet : DataFrame) : DataFrame :=
  normalize_columns (proposed_label year) rename_batch sheet.

Definition retired_frame (year : Z) (sheet : DataFrame) : DataFrame :=
  normalize_columns (retired_label year) rename_batch_retired sheet.

(** [df.plant_code.astype('str') + '_' + df.generator_id]. *)
Definition generator_uuid (df : DataFrame) : result Series :=
  plant_code ← getattr "plant_code" df;
  let left := map (fun s => s +:+ "_") (astype_str plant_code) in
  generator_id ← getattr "generator_id" df;
  add_series left generator_id.

(** [s.replace(' ', np.nan).astype(float)]. *)
Definition coerce_float (s : Series) : result Series :=
  astype_float (map replace_blank s).

(** [s.replace(' ', np.nan).round().astype(int)]. *)
Definition coerce_int (s : Series) : result Series :=
  rounded ← round_series (map replace_blank s);
  astype_int rounded.

Definition operating_columns : list string :=
  [ "generator_uuid"; "utility_name"; "plant_name"; "state"; "county";
    "status"; "sector"; "nameplate_capacity"; "energy_source_1";
    "operating_year"; "planned_retirement_year" ].

Definition operating_mask (status sector : Series) : list bool :=
  zip_with andb (eq_str "OP" status)
    (isin ["Electric Utility"; "IPP Non-CHP"; "IPP"] sector).

Definition parse_generators (year : Z) (sheet : DataFrame)
  : result DataFrame :=
  let df := operating_frame year sheet in
  uuid ← generator_uuid df;
  df ← project operating_columns (setitem "generator_uuid" uuid df);
  df ← set_index "generator_uuid" df;
  if decide (NoDup (index df)) then
    pry ← getattr "planned_retirement_year" df;
    pry ← coerce_float pry;
    let df := setitem "planned_retirement_year" pry df in
    es1 ← getattr "energy_source_1" df;
    let df := setitem "energy_source" (replace_mapping es1) df in
    status ← getattr "status" df;
    sector ← getattr "sector" df;
    Ok (filter_rows (operating_mask status sector) df)
  else Raise AssertionError.

Definition proposed_columns : list string :=
  [ "utility_name"; "plant_name"; "plant_code"; "state"; "county";
    "nameplate_capacity"; "status"; "energy_source_1"; "effective_year";
    "sector" ].

Definition proposed_mask (sector status : Series) : list bool :=
  zip_with andb (isin ["IPP Non-CHP"; "Electric Utility"] sector)
    (isin ["TS"; "V"; "U"; "T"] status).

Definition parse_proposed (year : Z) (sheet : DataFrame)
  : result DataFrame :=
  let df := proposed_frame year sheet in
  df ← project proposed_columns df;
  sector ← getattr "sector" df;
  status ← getattr "status" df;
  let df := filter_rows (proposed_mask sector status) df in
  es1 ← getattr "energy_source_1" df;
  let df := setitem "energy_source" (replace_mapping es1) df in
  ey ← getattr "effective_year" df;
  ey ← coerce_float ey;
  Ok (setitem "effective_year" ey df).

(** The body of [if year <= 2000:] in [parse_retired]. *)
Definition fixup_pre2001 (df : DataFrame) : result DataFrame :=
  let df := setitem_scalar "sector" (VStr "Electric Utility") df in
  let df := rename rename_pre2001 df in
  let df := setitem_scalar "utility_name" (VStr EmptyString) df in
  let df := setitem_scalar "plant_name" (VStr EmptyString) df in
  let df := setitem_scalar "state" (VStr EmptyString) df in
  let df := setitem_scalar "county" (VStr EmptyString) df in
  nameplate ← getattr "nameplate_capacity" df;
  scaled ← mapM truediv_1000 nameplate;
  Ok (setitem "nameplate_capacity" scaled df).

Definition retired_columns : list string :=
  [ "utility_name"; "plant_name"; "plant_code"; "state"; "county";
    "nameplate_capacity"; "energy_source"; "operating_year";
    "retirement_year" ].

Definition retired_mask (sector status : Series) : list bool :=
  zip_with andb (isin ["IPP Non-CHP"; "Electric Utility"] sector)
    (eq_str "RE" status).

(** One turn of the closing [for col in ...] loop. *)
Definition coerce_column (col : string) (df : DataFrame)
  : result DataFrame :=
  s ← getitem col df;
  s ← coerce_int s;
  Ok (setitem col s df).

Definition final_columns : list string :=
  [ "operating_year"; "retirement_year"; "nameplate_capacity" ].

Definition final_coercion (df : DataFrame) : result DataFrame :=
  foldl (fun acc col => df ← acc; coerce_column col df) (Ok df)
    final_columns.

(** [parse_retired] up to the projection that precedes the closing
    loop. *)
Definition retired_rows (year : Z) (sheet : DataFrame)
  : result DataFrame :=
  let df := retired_frame year sheet in
  df ← (if bool_decide (year <= 2000) then fixup_pre2001 df else Ok df);
  es1 ← getattr "energy_source_1" df;
  let df := setitem "energy_source" (replace_mapping es1) df in
  sector ← getattr "sector" df;
  status ← getattr "status" df;
  project retired_columns (filter_rows (retired_mask sector status) df).

Definition parse_retired (year : Z) (sheet : DataFrame)
  : result DataFrame :=
  df ← retired_rows year sheet;
  final_coercion df.

End Pipelines.

(** ** Sample sheets *)

(** A runtime for the samples below: none of their cells is a float to be
    printed or a string to be parsed, so its three functions are never
    consulted. *)
Definition sample_runtime : Runtime :=
  {| str_of_float := fun _ => EmptyString;
     float_of_str := fun _ => None;
     int_of_str := fun _ => None |}.

(** A "Proposed" sheet whose three rows have the statuses TS, P and V. *)
Definition proposed_sample : DataFrame :=
  {| index := [VInt 0; VInt 1; VInt 2];
     columns :=
       [ ("Utility Name", [VStr "Acme"; VStr "Acme"; VStr "Birch"]);
         ("Plant Name", [VStr "North"; VStr "South"; VStr "East"]);
         ("Plant Code", [VInt 10; VInt 11; VInt 12]);
         ("State", [VStr "TX"; VStr "TX"; VStr "OR"]);
         ("County", [VStr "Bell"; VStr "Hays"; VStr "Lane"]);
         ("Nameplate Capacity (MW)", [VFloat 50; VFloat 20; VFloat 150]);
         ("Status", [VStr "TS"; VStr "P"; VStr "V"]);
         ("Energy Source 1", [VStr "NG"; VStr "SUN"; VStr "WND"]);
         ("Effective Year", [VInt 2020; VStr " "; VInt 2021]);
         ("Sector Name",
          [VStr "IPP Non-CHP"; VStr "IPP Non-CHP"; VStr "Electric Utility"]);
         ("Sector", [VInt 2; VInt 2; VInt 1]) ] |}.

Definition proposed_sample_out : DataFrame :=
  {| index := [VInt 0; VInt 2];
     columns :=
       [ ("utility_name", [VStr "Acme"; VStr "Birch"]);
         ("plant_name", [VStr "North"; VStr "East"]);
         ("plant_code", [VInt 10; VInt 12]);
         ("state", [VStr "TX"; VStr "OR"]);
         ("county", [VStr "Bell"; VStr "Lane"]);
         ("nameplate_capacity", [VFloat 50; VFloat 150]);
         ("status", [VStr "TS"; VStr "V"]);
         ("energy_source_1", [VStr "NG"; VStr "WND"]);
         ("effective_year", [VFloat 2020; VFloat 2021]);
         ("sector", [VStr "IPP Non-CHP"; VStr "Electric Utility"]);
         ("energy_source", [VStr "natural gas"; VStr "wind"]) ] |}.

(** An "Operable" sheet with two generators of plant 123. *)
Definition operating_sample : DataFrame :=
  {| index := [VInt 0; VInt 1];
     columns :=
       [ ("Utility Name", [VStr "Acme"; VStr "Acme"]);
         ("Plant Code", [VInt 123; VInt 123]);
         ("Plant Name", [VStr "North"; VStr "North"]);
         ("State", [VStr "TX"; VStr "TX"]);
         ("County", [VStr "Bell"; VStr "Bell"]);
         ("Generator ID", [VStr "A"; VStr "B"]);
         ("Status", [VStr "OP"; VStr "OP"]);
         ("Sector Name", [VStr "Electric Utility"; VStr "IPP Non-CHP"]);
         ("Sector", [VInt 1; VInt 2]);
         ("Nameplate Capacity (MW)", [VFloat 50; VFloat 20]);
         ("Energy Source 1", [VStr "BIT"; VStr "NG"]);
         ("Operating Year", [VInt 1980; VInt 2004]);
         ("Planned Retirement Year", [VInt 2030; VStr " "]) ] |}.

Definition operating_sample_out : DataFrame :=
  {| index := [VStr "123_A"; VStr "123_B"];
     columns :=
       [ ("utility_name", [VStr "Acme"; VStr "Acme"]);
         ("plant_name", [VStr "North"; VStr "North"]);
         ("state", [VStr "TX"; VStr "TX"]);
         ("county", [VStr "Bell"; VStr "Bell"]);
         ("status", [VStr "OP"; VStr "OP"]);
         ("sector", [VStr "Electric Utility"; VStr "IPP Non-CHP"]);
         ("nameplate_capacity", [VFloat 50; VFloat 20]);
         ("energy_source_1", [VStr "BIT"; VStr "NG"]);
         ("operating_year", [VInt 1980; VInt 2004]);
         ("planned_retirement_year", [VFloat 2030; VNaN]);
         ("energy_source", [VStr "coal"; VStr "natural gas"]) ] |}.


(** A "Retired and Canceled" sheet of the 2018 layout: one retired unit of
    an independent producer, one of a commercial owner, one cancelled. *)
Definition retired_sample : DataFrame :=
  {| index := [VInt 0; VInt 1; VInt 2];
     columns :=
       [ ("Utility Name", [VStr "Acme"; VStr "Mall"; VStr "Birch"]);
         ("Plant Code", [VInt 10; VInt 11; VInt 12]);
         ("Plant Name", [VStr "North"; VStr "Roof"; VStr "East"]);
         ("State", [VStr "TX"; VStr "TX"; VStr "OR"]);
         ("County", [VStr "Bell"; VStr "Hays"; VStr "Lane"]);
         ("Status", [VStr "RE"; VStr "RE"; VStr "CN"]);
         ("Sector Name",
          [VStr "IPP Non-CHP"; VStr "Commercial"; VStr "Electric Utility"]);
         ("Sector", [VInt 2; VInt 4; VInt 1]);
         ("Nameplate Capacity (MW)", [VFloat 12.4; VFloat 1; VFloat 300]);
         ("Energy Source 1", [VStr "BIT"; VStr "SUN"; VStr "NUC"]);
         ("Operating Year", [VInt 1975; VInt 2011; VStr " "]);
         ("Retirement Year", [VInt 2015; VInt 2017; VStr " "]) ] |}.

Definition retired_sample_out : DataFrame :=
  {| index := [VInt 0];
     columns :=
       [ ("utility_name", [VStr "Acme"]);
         ("plant_name", [VStr "North"]);
         ("plant_code", [VInt 10]);
         ("state", [VStr "TX"]);
         ("county", [VStr "Bell"]);
         ("nameplate_capacity", [VInt 12]);
         ("energy_source", [VStr "coal"]);
         ("operating_year", [VInt 1975]);
         ("retirement_year", [VInt 2015]) ] |}.


(** An "Existing Generators" sheet of the 2000 layout: capacities are in
    kilowatts, and the month and year labels stand on each other's
    columns. *)
Definition retired_sample_2000 : DataFrame :=
  {| index := [VInt 0; VInt 1; VInt 2];
     columns :=
       [ ("Plant Code", [VInt 20; VInt 21; VInt 22]);
         ("Existing Nameplate", [VInt 12500; VInt 750; VInt 3499]);
         ("Existing Energy Source 1", [VStr "COL"; VStr "GAS"; VStr "PET"]);
         ("Existing Status", [VStr "RE"; VStr "OP"; VStr "RE"]);
         ("Operating Month", [VInt 1950; VInt 1960; VInt 1970]);
         ("Operating Year", [VInt 6; VInt 7; VInt 8]);
         ("Retirement Month", [VInt 1999; VStr " "; VInt 2000]);
         ("Retirement Year", [VInt 12; VStr " "; VInt 1]) ] |}.

Definition retired_sample_2000_out : DataFrame :=
  {| index := [VInt 0; VInt 2];
     columns :=
       [ ("utility_name", [VStr EmptyString; VStr EmptyString]);
         ("plant_name", [VStr EmptyString; VStr EmptyString]);
         ("plant_code", [VInt 20; VInt 22]);
         ("state", [VStr EmptyString; VStr EmptyString]);
         ("county", [VStr EmptyString; VStr EmptyString]);
         ("nameplate_capacity", [VInt 12; VInt 3]);
         ("energy_source", [VStr "coal"; VStr "oil"]);
         ("operating_year", [VInt 1950; VInt 1970]);
         ("retirement_year", [VInt 1999; VInt 2000]) ] |}.

(** ** Substrings and character tests *)

(** [sub in s]. *)
Fixpoint contains (sub s : string) : bool :=
  String.prefix sub s
  || match s with
     | EmptyString => false
     | String _ s' => contains sub s'
     end.

(** Every character of [s] passes the test [p]. *)
Fixpoint all_chars (p : ascii -> bool) (s : string) : bool :=
  match s with
  | EmptyString => true
  | String a s' => p a && all_chars p s'
  end.

(** The characters a normalised label is made of: fixed by [str.lower], and
    none of the space, the question mark and the slash. *)
Definition canonical_char (a : ascii) : bool :=
  Ascii.eqb (Py.lower_char a) a
  && negb (Ascii.eqb a " ") && negb (Ascii.eqb a "?")
  && negb (Ascii.eqb a "/").

(** ** The source archive: [_get_file] *)

Definition url_by_year : gmap Z string :=
  <[2018 := "https://www.eia.gov/electricity/data/eia860/xls/eia8602018.zip"]>
    (<[2010 := "https://www.eia.gov/electricity/data/eia860/archive/xls/eia8602010.zip"]>
       (<[2000 := "https://www.eia.gov/electricity/data/eia860/eia860a/eia860a2000.zip"]>
          ∅)).

Arguments url_by_year : simpl never.

(** What [_get_file] raises: the [KeyError] of a year that has no URL, the
    [StopIteration] of [next] on a filter that yields nothing, the
    [KeyError] of [ZipFile.open] for a name the archive does not hold. *)
Inductive get_file_exn : Type :=
  | NoUrl (year : Z)
  | StopIteration
  | NoMember (name : string).

(** [zipfile.namelist()]: the names of the members, in archive order. *)
Definition namelist {File} (zipfile : list (string * File)) : list string :=
  map fst zipfile.

(** [zipfile.open(name)]: of several members of one name the last. *)
Definition zip_open {File} (zipfile : list (string * File)) (name : string)
  : option File :=
  Py.dict zipfile !! name.

Section GetFile.
Context {File : Type}.

(** [ZipFile(BytesIO(urlopen(url).read()))]: the archive behind a URL as
    the list of its members.  The download is not modelled and taken to
    succeed. *)
Variable archive : string -> list (string * File).

Definition _get_file (year : Z) : get_file_exn + File :=
  match url_by_year !! year with
  | None => inl (NoUrl year)
  | Some url =>
      let zipfile := archive url in
      match List.find (contains "Generator") (namelist zipfile) with
      | None => inl StopIteration
      | Some found =>
          let fnm_gen :=
            if bool_decide (year <= 2000)
            then ("ExistingGenerators" +:+ pretty year) +:+ ".xls"
            else found in
          match zip_open zipfile fnm_gen with
          | Some file => inr file
          | None => inl (NoMember fnm_gen)
          end
      end
  end.

End GetFile.

(** An archive of the 2000 layout and one of the later layout. *)
Definition archive_2000 : list (string * nat) :=
  [ ("Readme.txt", 0%nat); ("ExistingGenerators2000.xls", 1%nat);
    ("ProposedGenerators2000.xls", 2%nat) ].

Definition archive_2018 : list (string * nat) :=
  [ ("1___Utility_Y2018.xlsx", 0%nat); ("2___Plant_Y2018.xlsx", 1%nat);
    ("3_1_Generator_Y2018.xlsx", 2%nat); ("3_2_Wind_Y2018.xlsx", 3%nat) ].

(** An "Operable" sheet of four generators: one operating at a utility, one
    on standby, one operating at a commercial owner, one operating at an
    independent producer. *)
Definition operating_sample_mixed : DataFrame :=
  {| index := [VInt 0; VInt 1; VInt 2; VInt 3];
     columns :=
       [ ("Utility Name",
          [VStr "Acme"; VStr "Acme"; VStr "Mall"; VStr "Birch"]);
         ("Plant Code", [VInt 123; VInt 123; VInt 7; VInt 9]);
         ("Plant Name",
          [VStr "North"; VStr "North"; VStr "Roof"; VStr "East"]);
         ("State", [VStr "TX"; VStr "TX"; VStr "TX"; VStr "OR"]);
         ("County", [VStr "Bell"; VStr "Bell"; VStr "Hays"; VStr "Lane"]);
         ("Generator ID", [VStr "A"; VStr "B"; VStr "1"; VStr "G1"]);
         ("Status", [VStr "OP"; VStr "SB"; VStr "OP"; VStr "OP"]);
         ("Sector Name",
          [VStr "Electric Utility"; VStr "Electric Utility";
           VStr "Commercial"; VStr "IPP"]);
         ("Sector", [VInt 1; VInt 1; VInt 4; VInt 2]);
         ("Nameplate Capacity (MW)",
          [VFloat 50; VFloat 20; VFloat 1; VFloat 80]);
         ("Energy Source 1",
          [VStr "BIT"; VStr "NG"; VStr "SUN"; VStr "XYZ"]);
         ("Operating Year", [VInt 1980; VInt 2004; VInt 2012; VInt 1999]);
         ("Planned Retirement Year",
          [VInt 2030; VStr " "; VStr " "; VStr " "]) ] |}.

Definition operating_sample_mixed_out : DataFrame :=
  {| index := [VStr "123_A"; VStr "9_G1"];
     columns :=
       [ ("utility_name", [VStr "Acme"; VStr "Birch"]);
         ("plant_name", [VStr "North"; VStr "East"]);
         ("state", [VStr "TX"; VStr "OR"]);
         ("county", [VStr "Bell"; VStr "Lane"]);
         ("status", [VStr "OP"; VStr "OP"]);
         ("sector", [VStr "Electric Utility"; VStr "IPP"]);
         ("nameplate_capacity", [VFloat 50; VFloat 80]);
         ("energy_source_1", [VStr "BIT"; VStr "XYZ"]);
         ("operating_year", [VInt 1980; VInt 1999]);
         ("planned_retirement_year", [VFloat 2030; VNaN]);
         ("energy_source", [VStr "coal"; VStr "XYZ"]) ] |}.

(** The 2000 sheet with a capacity entered as text in the row of the unit
    that is still operating. *)
Definition retired_sample_2000_text : DataFrame :=
  setitem "Existing Nameplate" [VInt 12500; VStr "n/a"; VInt 3499]
    retired_sample_2000.

(** The sheet of two generators with the second id read as a number. *)
Definition operating_sample_numeric : DataFrame :=
  setitem "Generator ID" [VStr "A"; VInt 2] operating_sample.

(** The "Proposed" sheet without its county column. *)
Definition proposed_sample_short : DataFrame :=
  {| index := index proposed_sample;
     columns :=
       List.filter (fun col => negb (has_label "County" col))
         (columns proposed_sample) |}.

(** The 2018 "Retired and Canceled" sheet without its fuel column. *)
Definition retired_sample_short : DataFrame :=
  {| index := index retired_sample;
     columns :=
       List.filter (fun col => negb (has_label "Energy Source 1" col))
         (columns retired_sample) |}.

(** The characters of the decimal text of a plant code: not the
    underscore that separates it from the generator id. *)
Definition plain_char (a : ascii) : bool := negb (Ascii.eqb a "_").

(** ** Rectangular frames *)

(** Every column has one cell per index entry, as in every frame pandas
    builds. *)
Definition rectangular (df : DataFrame) : Prop :=
  Forall (fun col => length col.2 = length (index df)) (columns df).

(** * Properties *)

(** ** Dicts and label renaming *)

Section DictLemmas.
Context {V : Type}.

Lemma dict_foldl_lookup (items : list (string * V)) (m : gmap string V)
    (k : string) :
  foldl (fun m kv => <[kv.1 := kv.2]> m) m items !! k
  = foldl (fun acc kv => if decide (kv.1 = k) then Some kv.2 else acc)
      (m !! k) items.
Proof.
  revert m. induction items as [|[k' v] items IH]; intros m; simpl.
  - reflexivity.
  - rewrite IH. by rewrite lookup_insert.
Qed.

Lemma dict_lookup (items : list (string * V)) (k : string) :
  Py.dict items !! k
  = foldl (fun acc kv => if decide (kv.1 = k) then Some kv.2 else acc)
      None items.
Proof. unfold Py.dict. by rewrite dict_foldl_lookup, lookup_empty. Qed.

Lemma dict_comp_scan_miss (f : string -> V) (keys : list string)
    (k : string) (acc : option V) :
  k ∉ keys ->
  foldl (fun acc kv => if decide (kv.1 = k) then Some kv.2 else acc)
    acc (map (fun c => (c, f c)) keys) = acc.
Proof.
  revert acc. induction keys as [|c keys IH]; intros acc Hk; simpl.
  - reflexivity.
  - apply not_elem_of_cons in Hk as [Hne Hk].
    rewrite decide_False by done. by apply IH.
Qed.

Lemma dict_lookup_None (items : list (string * V)) (k : string) :
  k ∉ map fst items -> Py.dict items !! k = None.
Proof.
  rewrite dict_lookup. generalize (@None V).
  induction items as [|[k' v] items IH]; intros acc Hk; simpl in *.
  - reflexivity.
  - apply not_elem_of_cons in Hk as [Hne Hk].
    rewrite decide_False by done. by apply IH.
Qed.

Lemma dict_comp_lookup (f : string -> V) (keys : list string) (k : string) :
  k ∈ keys -> Py.dict_comp f keys !! k = Some (f k).
Proof.
  unfold Py.dict_comp. rewrite dict_lookup.
  generalize (@None V).
  induction keys as [|c keys IH]; intros acc Hin; simpl.
  - by apply elem_of_nil in Hin.
  - destruct (decide (k ∈ keys)) as [Hk|Hk].
    + by apply IH.
    + apply elem_of_cons in Hin as [->|Hin]; [|done].
      rewrite decide_True by done. by apply dict_comp_scan_miss.
Qed.
End DictLemmas.

Lemma rename_columns (mapper : gmap string string) (df : DataFrame) :
  columns (rename mapper df)
  = map (fun col => (relabel mapper col.1, col.2)) (columns df).
Proof. reflexivity. Qed.

Lemma rename_dict_comp (f : string -> string) (df : DataFrame) :
  columns (rename (Py.dict_comp f (labels df)) df)
  = map (fun col => (f col.1, col.2)) (columns df).
Proof.
  unfold rename; simpl. apply map_ext_in. intros [c s] Hin; simpl.
  unfold relabel. rewrite dict_comp_lookup; [done|].
  apply list_elem_of_In. unfold labels. by apply (in_map fst) in Hin.
Qed.

Lemma normalize_columns_columns (label : string -> string)
    (batch : gmap string string) (sheet : DataFrame) :
  columns (normalize_columns label batch sheet)
  = map (fun col => (relabel batch (label col.1), col.2)) (columns sheet).
Proof.
  unfold normalize_columns. rewrite rename_columns, rename_dict_comp, map_map.
  reflexivity.
Qed.

Lemma normalize_columns_labels (label : string -> string)
    (batch : gmap string string) (sheet : DataFrame) :
  labels (normalize_columns label batch sheet)
  = map (fun c => relabel batch (label c)) (labels sheet).
Proof.
  unfold labels. rewrite normalize_columns_columns.
  induction (columns sheet) as [|[c s] l IH]; simpl; [done|].
  f_equal. exact IH.
Qed.

(** The data found under label [c] after a rename is the data of the
    columns whose old label the mapper sends to [c]. *)
Lemma select_rename (mapper : gmap string string) (c : string)
    (df : DataFrame) :
  data c (rename mapper df)
  = map snd (List.filter (fun col => bool_decide (relabel mapper col.1 = c))
               (columns df)).
Proof.
  unfold data, select, rename; simpl.
  induction (columns df) as [|[c' s] l IH]; simpl; [done|].
  unfold has_label at 1; simpl.
  destruct (bool_decide (relabel mapper c' = c)); simpl; by rewrite IH.
Qed.

(** Case analysis on the keys of a dict display. *)
Ltac dict_cases :=
  unfold relabel, rename_batch, rename_batch_retired, rename_pre2001;
  rewrite dict_lookup; simpl;
  repeat case_decide; simplify_eq/=;
  repeat (case_bool_decide; simplify_eq/=); try done.









(** When the mapper sends exactly the old label [c0] to [c], the data under
    [c] afterwards is the data that was under [c0]. *)
Lemma select_rename_from (mapper : gmap string string) (c c0 : string)
    (df : DataFrame) :
  (forall c', bool_decide (relabel mapper c' = c) = bool_decide (c' = c0)) ->
  data c (rename mapper df) = data c0 df.
Proof.
  intros Hc. rewrite select_rename. unfold data, select. f_equal.
  apply filter_ext. intros [c' s]. unfold has_label; simpl. apply Hc.
Qed.

(** ** Column normalisation per pipeline *)

(** C1 (as amended): the year-2010 exception belongs to the operating
    pipeline alone.  There a raw label is only lowercased for 2010, and fully
    normalised for every other year; the proposed and the retired pipeline
    apply the full normalisation to every label for every year, 2010
    included: the proposed pipeline does not depend on the year at all, the
    retired one only on whether the year is after 2000. *)
Theorem year_2010_exception_only_in_operating :
  (forall c, operating_label 2010 c = Py.lower c)
  /\ (forall sheet,
        labels (operating_frame 2010 sheet)
        = map (fun c => relabel rename_batch (Py.lower c)) (labels sheet))
  /\ (forall year c,
        operating_label year c
        = if bool_decide (year = 2010) then Py.lower c
          else normalize_label c)
  /\ (forall year c, proposed_label year c = normalize_label c)
  /\ (forall year c, retired_label year c = normalize_label c)
  /\ (forall year sheet,
        labels (proposed_frame year sheet)
        = map (fun c => relabel rename_batch (normalize_label c))
            (labels sheet))
  /\ (forall year sheet,
        labels (retired_frame year sheet)
        = map (fun c => relabel rename_batch_retired (normalize_label c))
            (labels sheet))
  /\ (forall (R : Runtime) year year' sheet,
        parse_proposed year sheet = parse_proposed year' sheet)
  /\ (forall (R : Runtime) year year' sheet,
        2000 < year -> 2000 < year' ->
        parse_retired year sheet = parse_retired year' sheet).
Proof.
  repeat apply conj; try reflexivity; intros.
  - unfold operating_frame. by rewrite normalize_columns_labels.
  - unfold proposed_frame. by rewrite normalize_columns_labels.
  - unfold retired_frame. by rewrite normalize_columns_labels.
  - unfold parse_retired, retired_rows.
    rewrite !bool_decide_false by lia. reflexivity.
Qed.

(** C1 (as stated) fails: for 2010 the proposed and the retired pipeline
    turn "Plant Name" into "plant_name", not into its lowercase form
    "plant name". *)
Lemma year_2010_exception_not_in_proposed_retired :
  ~ (forall c,
       operating_label 2010 c = Py.lower c
       /\ proposed_label 2010 c = Py.lower c
       /\ retired_label 2010 c = Py.lower c).
Proof.
  intros Hall. destruct (Hall "Plant Name") as (_ & Hproposed & _).
  vm_compute in Hproposed. discriminate Hproposed.
Qed.

(** ** The fuel table *)

Lemma categories_are_not_codes :
  map_Forall (fun _ c => energy_source_mapping !! c = None)
    energy_source_mapping.
Proof. apply (bool_decide_unpack _). vm_compute. exact I. Qed.

(** C5: every code of the table is classified as the table says (BIT and RC
    as coal, NG as natural gas, MWH as storage, UNK as other), every entry
    is one of the ten categories, and a string that is not a code of the
    table is returned as it is; [classify] is a total function, so nothing
    is raised. *)
Theorem classify_table :
  Forall (fun kv => classify (VStr kv.1) = VStr kv.2) energy_source_items
  /\ Forall (fun kv => kv.2 ∈ categories) energy_source_items
  /\ classify (VStr "BIT") = VStr "coal"
  /\ classify (VStr "NG") = VStr "natural gas"
  /\ classify (VStr "MWH") = VStr "storage"
  /\ classify (VStr "RC") = VStr "coal"
  /\ classify (VStr "UNK") = VStr "other"
  /\ (forall s, s ∉ map fst energy_source_items ->
                classify (VStr s) = VStr s)
  /\ (forall v, (forall s, v <> VStr s) -> classify v = v).
Proof.
  split; [|split; [|repeat apply conj]].
  - apply (bool_decide_unpack _). vm_compute. exact I.
  - apply (bool_decide_unpack _). vm_compute. exact I.
  - vm_compute. reflexivity.
  - vm_compute. reflexivity.
  - vm_compute. reflexivity.
  - vm_compute. reflexivity.
  - vm_compute. reflexivity.
  - intros s Hs. unfold classify, energy_source_mapping.
    by rewrite dict_lookup_None.
  - intros [s| | |] Hv; try reflexivity. by destruct (Hv s).
Qed.

(** ** Outcomes *)

Lemma bind_Ok {A B} (m : result A) (k : A -> result B) (b : B) :
  m ≫= k = Ok b <-> exists a, m = Ok a /\ k a = Ok b.
Proof.
  destruct m as [a|e|]; simpl; split.
  - intros Hk. by exists a.
  - by intros (a' & [= ->] & Hk).
  - discriminate.
  - by intros (a' & [=] & _).
  - discriminate.
  - by intros (a' & [=] & _).
Qed.

Lemma mapM_Ok {A B} (f : A -> result B) (l : list A) (l' : list B) :
  mapM f l = Ok l' <-> Forall2 (fun x y => f x = Ok y) l l'.
Proof.
  revert l'. induction l as [|x l IH]; intros l'; simpl.
  - split.
    + intros [= <-]. constructor.
    + intros Hl. by inversion Hl.
  - split.
    + intros Hm. apply bind_Ok in Hm as (y & Hy & Hm).
      apply bind_Ok in Hm as (k & Hk & [= <-]).
      constructor; [done|]. by apply IH.
    + intros Hl. inversion Hl as [|? y ? k Hy Hk]; subst.
      apply IH in Hk. by rewrite Hy, Hk.
Qed.

(** ** Row selection *)

Section Keep.
Context {A : Type}.
Implicit Types (mask : list bool) (l : list A).

Lemma elem_of_keep mask l x :
  x ∈ keep mask l <->
  exists i, mask !! i = Some true /\ l !! i = Some x.
Proof.
  revert l. induction mask as [|b mask IH]; intros l; simpl.
  - split; [by intros ?%elem_of_nil|]. by intros (i & [=] & _).
  - destruct l as [|y l].
    + split; [by intros ?%elem_of_nil|]. by intros (i & _ & [=]).
    + destruct b.
      * rewrite elem_of_cons, IH. split.
        -- intros [->|(i & Hm & Hl)]; [by exists 0%nat|by exists (S i)].
        -- intros ([|i] & Hm & Hl); simpl in *; [left; congruence|].
           right. by exists i.
      * rewrite IH. split.
        -- intros (i & Hm & Hl). by exists (S i).
        -- intros ([|i] & Hm & Hl); simpl in *; [done|]. by exists i.
Qed.

Lemma keep_sublist mask l : keep mask l `sublist_of` l.
Proof.
  revert l. induction mask as [|b mask IH]; intros [|y l]; simpl;
    try apply sublist_nil_l.
  destruct b; [by apply sublist_skip|by apply sublist_cons].
Qed.

Lemma NoDup_keep mask l : NoDup l -> NoDup (keep mask l).
Proof. intros Hl. eapply sublist_NoDup; [done|apply keep_sublist]. Qed.

End Keep.

Lemma pick_data (missing : exn) (c : string) (df : DataFrame) :
  pick missing c df
  = match data c df with
    | [] => Raise missing
    | [s] => Ok s
    | _ :: _ :: _ => Ambiguous
    end.
Proof.
  unfold pick, data. by destruct (select c df) as [|col [|col' l]].
Qed.

Lemma pick_Ok (missing : exn) (c : string) (df : DataFrame) (s : Series) :
  pick missing c df = Ok s <-> data c df = [s].
Proof.
  rewrite pick_data.
  destruct (data c df) as [|s' [|s'' l]]; split; (try done); by intros [= ->].
Qed.

Lemma filter_label_cons (c c' : string) (s : Series)
    (l : list (string * Series)) :
  List.filter (has_label c) ((c', s) :: l)
  = if decide (c' = c) then (c', s) :: List.filter (has_label c) l
    else List.filter (has_label c) l.
Proof.
  simpl. unfold has_label at 1; simpl.
  destruct (decide (c' = c)) as [Heq|Hne].
  - by rewrite bool_decide_true.
  - by rewrite bool_decide_false.
Qed.

Lemma elem_of_labels_select (c : string) (df : DataFrame) :
  c ∈ labels df <-> select c df <> [].
Proof.
  unfold labels, select.
  induction (columns df) as [|[c' s] l IH].
  - simpl. split; [by intros ?%elem_of_nil|done].
  - rewrite filter_label_cons. cbn [map fst]. rewrite elem_of_cons, IH.
    destruct (decide (c' = c)) as [->|Hne]; [by split; auto|].
    split; [intros [->|?]; done|auto].
Qed.

Lemma elem_of_labels_data (c : string) (df : DataFrame) :
  c ∈ labels df <-> data c df <> [].
Proof.
  rewrite elem_of_labels_select. unfold data.
  by destruct (select c df).
Qed.

Lemma setitem_columns (c : string) (s : Series) (df : DataFrame) :
  columns (setitem c s df)
  = if bool_decide (c ∈ labels df)
    then map (fun col => if has_label c col then (c, s) else col)
           (columns df)
    else (columns df ++ [(c, s)])%list.
Proof. reflexivity. Qed.

Lemma data_setitem_ne (c c' : string) (s : Series) (df : DataFrame) :
  c <> c' -> data c (setitem c' s df) = data c df.
Proof.
  intros Hne. unfold data, select. rewrite setitem_columns.
  case_bool_decide as Hin.
  - clear Hin. induction (columns df) as [|[c0 s0] l IH]; [done|].
    cbn [map]. unfold has_label at 2. cbn [fst].
    case_bool_decide as Hc0.
    + subst c0. rewrite !filter_label_cons.
      rewrite !decide_False by done. apply IH.
    + rewrite !filter_label_cons.
      destruct (decide (c0 = c)); cbn [map snd]; by rewrite IH.
  - rewrite List.filter_app, filter_label_cons, decide_False by done.
    by rewrite app_nil_r.
Qed.

Lemma data_setitem_eq (c : string) (s : Series) (df : DataFrame) :
  data c (setitem c s df)
  = if bool_decide (c ∈ labels df) then map (fun _ => s) (data c df)
    else [s].
Proof.
  unfold data at 1, select. rewrite setitem_columns.
  case_bool_decide as Hin.
  - unfold data, select. clear Hin.
    induction (columns df) as [|[c0 s0] l IH]; [done|].
    cbn [map]. unfold has_label at 2. cbn [fst].
    case_bool_decide as Hc0.
    + subst c0. rewrite !filter_label_cons, !decide_True by done.
      cbn [map snd]. by rewrite IH.
    + rewrite !filter_label_cons, !decide_False by done. apply IH.
  - rewrite List.filter_app, filter_label_cons, decide_True by done.
    rewrite elem_of_labels_select in Hin.
    apply dec_stable in Hin. unfold select in Hin. by rewrite Hin.
Qed.

Lemma index_setitem (c : string) (s : Series) (df : DataFrame) :
  index (setitem c s df) = index df.
Proof. reflexivity. Qed.

Lemma labels_setitem (c : string) (s : Series) (df : DataFrame) (c' : string) :
  c' ∈ labels (setitem c s df) <-> c' = c \/ c' ∈ labels df.
Proof.
  destruct (decide (c' = c)) as [->|Hne].
  - rewrite elem_of_labels_data, data_setitem_eq. split; [auto|intros _].
    case_bool_decide as Hin; [|done].
    apply elem_of_labels_data in Hin. by destruct (data c df).
  - rewrite !elem_of_labels_data, data_setitem_ne by done.
    split; [auto|]. by intros [?|?].
Qed.

Lemma data_filter_rows (c : string) (mask : list bool) (df : DataFrame) :
  data c (filter_rows mask df) = map (keep mask) (data c df).
Proof.
  unfold data, select, filter_rows; cbn [columns].
  induction (columns df) as [|[c0 s0] l IH]; [done|].
  cbn [map fst snd]. rewrite !filter_label_cons.
  destruct (decide (c0 = c)); cbn [map snd]; by rewrite IH.
Qed.

Lemma index_filter_rows (mask : list bool) (df : DataFrame) :
  index (filter_rows mask df) = keep mask (index df).
Proof. reflexivity. Qed.

Lemma filter_label_select (c c' : string) (df : DataFrame) :
  List.filter (has_label c) (select c' df)
  = if decide (c' = c) then select c df else [].
Proof.
  unfold select. induction (columns df) as [|[c0 s0] l IH].
  - by destruct (decide (c' = c)).
  - rewrite (filter_label_cons c'), (filter_label_cons c).
    destruct (decide (c0 = c')) as [Heq0|Hne0];
      [rewrite filter_label_cons|]; rewrite IH;
      destruct (decide (c' = c)), (decide (c0 = c)); congruence.
Qed.

Lemma project_Ok (cs : list string) (df df' : DataFrame) :
  project cs df = Ok df' <->
  Forall (fun c => c ∈ labels df) cs
  /\ df' = {| index := index df;
              columns := flat_map (fun c => select c df) cs |}.
Proof.
  unfold project.
  destruct (forallb _ cs) eqn:Hall.
  - rewrite forallb_forall in Hall. split.
    + intros [= <-]. split; [|done]. apply Forall_forall. intros c Hc.
      apply list_elem_of_In, Hall in Hc. by apply bool_decide_eq_true in Hc.
    + by intros [_ ->].
  - split; [done|]. intros [Hcs _].
    assert (forallb (fun c => bool_decide (c ∈ labels df)) cs = true)
      as Habs; [|congruence].
    apply forallb_forall. intros c Hc. apply bool_decide_eq_true.
    rewrite Forall_forall in Hcs. by apply Hcs, list_elem_of_In.
Qed.

Lemma project_Raise (cs : list string) (df : DataFrame) :
  project cs df = Raise KeyError \/ exists df', project cs df = Ok df'.
Proof. unfold project. destruct (forallb _ cs); eauto. Qed.

Lemma data_project (cs : list string) (df df' : DataFrame) (c : string) :
  NoDup cs -> project cs df = Ok df' ->
  data c df' = if bool_decide (c ∈ cs) then data c df else [].
Proof.
  intros Hnd [_ ->]%project_Ok. unfold data at 1. unfold select at 1.
  cbn [columns].
  induction Hnd as [|c0 cs Hc0 Hnd IH]; [done|].
  cbn [flat_map]. rewrite List.filter_app, map_app, IH, filter_label_select.
  destruct (decide (c0 = c)) as [->|Hne].
  - rewrite (bool_decide_true (c ∈ c :: cs)) by left.
    rewrite (bool_decide_false (c ∈ cs)) by done. by rewrite app_nil_r.
  - rewrite app_nil_l. case_bool_decide as Hc.
    + rewrite bool_decide_true; [done|]. by right.
    + rewrite bool_decide_false; [done|]. by intros [->|?]%elem_of_cons.
Qed.

Lemma index_project (cs : list string) (df df' : DataFrame) :
  project cs df = Ok df' -> index df' = index df.
Proof. by intros [_ ->]%project_Ok. Qed.

Lemma labels_project (cs : list string) (df df' : DataFrame) (c : string) :
  project cs df = Ok df' -> c ∈ labels df' <-> c ∈ cs.
Proof.
  intros [Hcs ->]%project_Ok. rewrite elem_of_labels_select.
  unfold select at 1; cbn [columns].
  induction Hcs as [|c0 cs Hc0 Hcs IH]; [by rewrite elem_of_nil|].
  cbn [flat_map]. rewrite List.filter_app, filter_label_select, elem_of_cons.
  destruct (decide (c0 = c)) as [->|Hne].
  - split; [auto|intros _].
    apply elem_of_labels_select in Hc0. by destruct (select c df).
  - rewrite app_nil_l, IH. split; [auto|]. by intros [->|?].
Qed.

Lemma set_index_Ok (c : string) (df df' : DataFrame) :
  set_index c df = Ok df' <->
  exists s, data c df = [s]
    /\ df' = {| index := s;
                columns := List.filter (fun col => negb (has_label c col))
                             (columns df) |}.
Proof.
  unfold set_index, getitem. rewrite bind_Ok. split.
  - intros (s & Hs%pick_Ok & [= <-]). by exists s.
  - intros (s & Hs%(pick_Ok KeyError) & ->). by exists s.
Qed.

Lemma data_set_index (c c' : string) (df df' : DataFrame) :
  set_index c df = Ok df' -> c' <> c -> data c' df' = data c' df.
Proof.
  intros (s & _ & ->)%set_index_Ok Hne. unfold data, select; cbn [columns].
  induction (columns df) as [|[c0 s0] l IH]; [done|].
  rewrite filter_label_cons. cbn [List.filter]. unfold has_label at 2.
  cbn [fst]. case_bool_decide as Hc0; cbn [negb].
  - subst c0. by rewrite decide_False.
  - rewrite filter_label_cons.
    destruct (decide (c0 = c')); cbn [map snd]; by rewrite IH.
Qed.

Lemma lookup_map {A B} (f : A -> B) (l : list A) (i : nat) :
  map f l !! i = f <$> l !! i.
Proof. exact (list_lookup_fmap f l i). Qed.

Section Proposed.
Context `{Runtime}.

Lemma parse_proposed_Ok (year : Z) (sheet out : DataFrame) :
  parse_proposed year sheet = Ok out ->
  exists df sector status es1 ey ey',
    project proposed_columns (proposed_frame year sheet) = Ok df
    /\ data "sector" df = [sector]
    /\ data "status" df = [status]
    /\ data "energy_source_1" df = [es1]
    /\ data "effective_year" df = [ey]
    /\ coerce_float (keep (proposed_mask sector status) ey) = Ok ey'
    /\ out = setitem "effective_year" ey'
               (setitem "energy_source"
                  (replace_mapping
                     (keep (proposed_mask sector status) es1))
                  (filter_rows (proposed_mask sector status) df)).
Proof.
  unfold parse_proposed. intros Hrun.
  apply bind_Ok in Hrun as (df & Hdf & Hrun).
  apply bind_Ok in Hrun as (sector & Hsector & Hrun).
  apply bind_Ok in Hrun as (status & Hstatus & Hrun).
  apply bind_Ok in Hrun as (es1' & Hes1 & Hrun).
  apply bind_Ok in Hrun as (ey0 & Hey & Hrun).
  apply bind_Ok in Hrun as (ey' & Hey' & [= <-]).
  apply pick_Ok in Hsector, Hstatus, Hes1, Hey.
  rewrite data_filter_rows in Hes1.
  rewrite data_setitem_ne, data_filter_rows in Hey by done.
  destruct (data "energy_source_1" df) as [|es1 [|]] eqn:Des1;
    simplify_eq/=.
  destruct (data "effective_year" df) as [|ey [|]] eqn:Dey;
    simplify_eq/=.
  by exists df, sector, status, es1, ey, ey'.
Qed.
End Proposed.

(** ** Row masks *)

Lemma zip_with_andb_lookup (l k : list bool) (i : nat) :
  zip_with andb l k !! i = Some true <->
  l !! i = Some true /\ k !! i = Some true.
Proof.
  rewrite lookup_zip_with.
  destruct (l !! i) as [[]|], (k !! i) as [[]|]; simpl;
    split; intros; destruct_and?; simplify_eq/=; auto.
Qed.

Lemma elem_of_map_VStr (v : value) (xs : list string) :
  v ∈ map VStr xs <-> exists x, v = VStr x /\ x ∈ xs.
Proof.
  induction xs as [|y xs IH]; simpl.
  - rewrite elem_of_nil. split; [done|]. by intros (x & _ & ?%elem_of_nil).
  - rewrite elem_of_cons, IH. split.
    + intros [->|(x & -> & Hx)]; [exists y|exists x]; split; auto.
      * by left.
      * by right.
    + intros (x & -> & [->|Hx]%elem_of_cons); [by left|].
      right. by exists x.
Qed.

Lemma isin_lookup (xs : list string) (s : Series) (i : nat) :
  isin xs s !! i = Some true <->
  exists x, s !! i = Some (VStr x) /\ x ∈ xs.
Proof.
  unfold isin. rewrite lookup_map.
  destruct (s !! i) as [v|]; simpl.
  - split.
    + intros [= Hv%bool_decide_eq_true].
      apply elem_of_map_VStr in Hv as (x & -> & Hx). by exists x.
    + intros (x & [= ->] & Hx). f_equal. apply bool_decide_eq_true.
      apply elem_of_map_VStr. by exists x.
  - split; [done|]. by intros (x & [=] & _).
Qed.

(** ** The proposed pipeline *)

(** Closes a goal that is decidable and closed by evaluating it. *)
Ltac decide_closed := apply (bool_decide_unpack _); vm_compute; exact I.

Lemma NoDup_proposed_columns : NoDup proposed_columns.
Proof. decide_closed. Qed.

Section ProposedRows.
Context `{Runtime}.

(** C8: when the proposed pipeline returns, its rows are exactly the rows
    of the sheet whose sector is IPP Non-CHP or Electric Utility and whose
    status is TS, V, U or T: the mask selects those positions and no other,
    the index and every projected column are the sheet's, cut down to the
    mask, and every status left is one of the four (a row with status P is
    dropped). *)
Theorem proposed_keeps_approved_rows (year : Z) (sheet out : DataFrame) :
  parse_proposed year sheet = Ok out ->
  exists sector status : Series,
    data "sector" (proposed_frame year sheet) = [sector]
    /\ data "status" (proposed_frame year sheet) = [status]
    /\ (forall i,
          proposed_mask sector status !! i = Some true <->
          exists s t,
            sector !! i = Some (VStr s) /\ status !! i = Some (VStr t)
            /\ s ∈ ["IPP Non-CHP"; "Electric Utility"]
            /\ t ∈ ["TS"; "V"; "U"; "T"])
    /\ index out = keep (proposed_mask sector status) (index sheet)
    /\ (forall c,
          c ∈ proposed_columns -> c <> "effective_year" ->
          data c out
          = map (keep (proposed_mask sector status))
              (data c (proposed_frame year sheet)))
    /\ (forall v,
          v ∈ keep (proposed_mask sector status) status ->
          v ∈ map VStr ["TS"; "V"; "U"; "T"]).
Proof.
  intros Hrun.
  apply parse_proposed_Ok in Hrun
    as (df & sector & status & es1 & ey & ey' & Hdf & Hsector & Hstatus
        & Hes1 & Hey & Hey' & ->).
  pose proof (fun c => data_project _ _ _ c NoDup_proposed_columns Hdf)
    as Hdata.
  exists sector, status. repeat apply conj.
  - rewrite <- Hsector, Hdata. rewrite bool_decide_true; [done|].
    decide_closed.
  - rewrite <- Hstatus, Hdata. rewrite bool_decide_true; [done|].
    decide_closed.
  - intros i. unfold proposed_mask.
    rewrite zip_with_andb_lookup, !isin_lookup. split.
    + intros [(s & Hs & Hms) (t & Ht & Hmt)]. by exists s, t.
    + intros (s & t & Hs & Ht & Hms & Hmt). split; eauto.
  - rewrite !index_setitem, index_filter_rows.
    by rewrite (index_project _ _ _ Hdf).
  - intros c Hc Hne.
    rewrite data_setitem_ne by done.
    rewrite data_setitem_ne.
    + rewrite data_filter_rows, Hdata. by rewrite bool_decide_true.
    + intros ->. revert Hc. decide_closed.
  - intros v (i & Hm & Hv)%elem_of_keep. unfold proposed_mask in Hm.
    apply zip_with_andb_lookup in Hm as [_ Hm].
    apply isin_lookup in Hm as (t & Ht & Hmt).
    rewrite Ht in Hv. injection Hv as <-.
    apply elem_of_map_VStr. by exists t.
Qed.

End ProposedRows.

(** The sample sheet with statuses TS, P and V: the run returns the TS and
    the V row, and the theorem applies to it. *)
Lemma proposed_keeps_approved_rows_sample :
  parse_proposed (H := sample_runtime) 2018 proposed_sample
  = Ok proposed_sample_out
  /\ index proposed_sample_out = [VInt 0; VInt 2]
  /\ data "status" proposed_sample_out = [[VStr "TS"; VStr "V"]]
  /\ exists sector status : Series,
       data "status" (proposed_frame 2018 proposed_sample) = [status]
       /\ index proposed_sample_out
          = keep (proposed_mask sector status) (index proposed_sample).
Proof.
  assert (parse_proposed (H := sample_runtime) 2018 proposed_sample
          = Ok proposed_sample_out) as Hrun by (vm_compute; reflexivity).
  split; [exact Hrun|]. split; [reflexivity|]. split; [reflexivity|].
  destruct (proposed_keeps_approved_rows (H := sample_runtime) 2018
              proposed_sample proposed_sample_out Hrun)
    as (sector & status & _ & Hstatus & _ & Hindex & _).
  exists sector, status. split; [exact Hstatus|exact Hindex].
Defined.

(** ** The fuel classifier is idempotent *)

(** C9: classifying twice is classifying once, for every cell; in
    particular each of the ten categories is left as it is, none of them
    being a code of the table. *)
Theorem classify_idempotent :
  (forall v, classify (classify v) = classify v)
  /\ Forall (fun c => classify (VStr c) = VStr c) categories
  /\ (forall s : Series,
        replace_mapping (replace_mapping s) = replace_mapping s).
Proof.
  assert (forall v, classify (classify v) = classify v) as Hidem.
  { intros [s| | |]; [|reflexivity..]. unfold classify.
    destruct (energy_source_mapping !! s) as [c|] eqn:Hs;
      cbn [default from_option id].
    - rewrite (categories_are_not_codes s c Hs). reflexivity.
    - rewrite Hs. reflexivity. }
  split; [exact Hidem|]. split.
  - decide_closed.
  - intros s. unfold replace_mapping. rewrite map_map.
    apply map_ext. intros v. apply Hidem.
Qed.

(** ** Renames are simultaneous *)

Lemma data_setitem_scalar_ne (c c' : string) (v : value) (df : DataFrame) :
  c <> c' -> data c (setitem_scalar c' v df) = data c df.
Proof. intros Hne. unfold setitem_scalar. by apply data_setitem_ne. Qed.

Section Fixup.
Context `{Runtime}.

Lemma fixup_pre2001_Ok (df df' : DataFrame) :
  fixup_pre2001 df = Ok df' ->
  exists nameplate scaled,
    data "nameplate_capacity"
      (rename rename_pre2001
         (setitem_scalar "sector" (VStr "Electric Utility") df))
    = [nameplate]
    /\ Forall2 (fun v w => truediv_1000 v = Ok w) nameplate scaled
    /\ df' = setitem "nameplate_capacity" scaled
               (setitem_scalar "county" (VStr EmptyString)
                  (setitem_scalar "state" (VStr EmptyString)
                     (setitem_scalar "plant_name" (VStr EmptyString)
                        (setitem_scalar "utility_name" (VStr EmptyString)
                           (rename rename_pre2001
                              (setitem_scalar "sector"
                                 (VStr "Electric Utility") df)))))).
Proof.
  unfold fixup_pre2001. intros Hrun.
  apply bind_Ok in Hrun as (nameplate & Hnp & Hrun).
  apply bind_Ok in Hrun as (scaled & Hscaled & [= <-]).
  apply pick_Ok in Hnp. apply mapM_Ok in Hscaled.
  rewrite !data_setitem_scalar_ne in Hnp by done.
  by exists nameplate, scaled.
Qed.


End Fixup.


(** ** The operating pipeline *)

Lemma bind_Ok_l {A B} (a : A) (k : A -> result B) : Ok a ≫= k = k a.
Proof. reflexivity. Qed.

Lemma NoDup_operating_columns : NoDup operating_columns.
Proof. decide_closed. Qed.

Section Operating.
Context `{Runtime}.

(** The key of a row is the text of its plant code, an underscore and its
    generator id. *)
Lemma generator_uuid_Ok (df : DataFrame) (uuid : Series) :
  generator_uuid df = Ok uuid ->
  exists plant_code generator_id,
    data "plant_code" df = [plant_code]
    /\ data "generator_id" df = [generator_id]
    /\ forall i p g,
         plant_code !! i = Some p -> generator_id !! i = Some (VStr g) ->
         uuid !! i = Some (VStr ((str p +:+ "_") +:+ g)).
Proof.
  unfold generator_uuid. intros Hrun.
  apply bind_Ok in Hrun as (plant_code & Hpc & Hrun).
  apply bind_Ok in Hrun as (generator_id & Hgid & Hrun).
  apply pick_Ok in Hpc, Hgid.
  exists plant_code, generator_id. repeat apply conj; [done..|].
  intros i p g Hp Hg. unfold add_series in Hrun. apply mapM_Ok in Hrun.
  destruct (Forall2_lookup_l _ _ _ i (str p +:+ "_", VStr g) Hrun)
    as (u & Hu & Hadd).
  - unfold zip. apply lookup_zip_with_Some.
    exists (str p +:+ "_"), (VStr g). split; [done|]. split; [|done].
    unfold astype_str. by rewrite !lookup_map, Hp.
  - simpl in Hadd. injection Hadd as <-. exact Hu.
Qed.

Lemma parse_generators_Ok (year : Z) (sheet out : DataFrame) :
  parse_generators year sheet = Ok out ->
  exists uuid df pry pry' es1 status sector,
    generator_uuid (operating_frame year sheet) = Ok uuid
    /\ project operating_columns
         (setitem "generator_uuid" uuid (operating_frame year sheet))
       = Ok df
    /\ data "generator_uuid" df = [uuid]
    /\ NoDup uuid
    /\ data "planned_retirement_year" df = [pry]
    /\ coerce_float pry = Ok pry'
    /\ data "energy_source_1" df = [es1]
    /\ data "status" df = [status]
    /\ data "sector" df = [sector]
    /\ out = filter_rows (operating_mask status sector)
               (setitem "energy_source" (replace_mapping es1)
                  (setitem "planned_retirement_year" pry'
                     {| index := uuid;
                        columns :=
                          List.filter
                            (fun col =>
                               negb (has_label "generator_uuid" col))
                            (columns df) |})).
Proof.
  unfold parse_generators. intros Hrun.
  apply bind_Ok in Hrun as (uuid & Huuid & Hrun).
  apply bind_Ok in Hrun as (df & Hdf & Hrun).
  apply bind_Ok in Hrun as (df2 & Hdf2 & Hrun).
  destruct (decide (NoDup (index df2))) as [Hnodup|]; [|done].
  apply bind_Ok in Hrun as (pry & Hpry & Hrun).
  apply bind_Ok in Hrun as (pry' & Hpry' & Hrun).
  apply bind_Ok in Hrun as (es1 & Hes1 & Hrun).
  apply bind_Ok in Hrun as (status & Hstatus & Hrun).
  apply bind_Ok in Hrun as (sector & Hsector & [= <-]).
  apply pick_Ok in Hpry, Hes1, Hstatus, Hsector.
  pose proof (fun c => data_set_index _ c _ _ Hdf2) as Hkeep.
  apply set_index_Ok in Hdf2 as (s & Hs & ->). cbn [index] in Hnodup.
  assert (s = uuid) as ->.
  { rewrite (data_project _ _ _ "generator_uuid" NoDup_operating_columns Hdf)
      in Hs.
    rewrite bool_decide_true in Hs by decide_closed.
    rewrite data_setitem_eq in Hs.
    case_bool_decide; [|by injection Hs].
    destruct (data "generator_uuid" (operating_frame year sheet))
      as [|? [|? ?]]; by simplify_eq/=. }
  rewrite data_setitem_ne in Hes1 by done.
  rewrite !data_setitem_ne in Hstatus, Hsector by done.
  rewrite Hkeep in Hpry, Hes1, Hstatus, Hsector by done.
  by exists uuid, df, pry, pry', es1, status, sector.
Qed.


End Operating.


(** ** Numeric coercions *)

Lemma trunc_inject_Z (z : Z) : trunc (inject_Z z) = z.
Proof. unfold trunc; simpl. apply Z.quot_1_r. Qed.



Lemma Forall2_chain {A B C} (R : A -> B -> Prop) (S : B -> C -> Prop)
    (T : A -> C -> Prop) (l : list A) (m : list B) (k : list C) :
  (forall x y z, R x y -> S y z -> T x z) ->
  Forall2 R l m -> Forall2 S m k -> Forall2 T l k.
Proof.
  intros HT Hlm. revert k.
  induction Hlm as [|x y l m Hxy Hlm IH]; intros k Hmk;
    inversion Hmk; subst; constructor; eauto.
Qed.

Section Coercions.
Context `{Runtime}.



(** What one cell becomes under [replace(' ', np.nan).round().astype(int)]:
    an integer stays, a float is rounded; a blank, a missing cell or any
    other string does not get through. *)
Lemma int_cell_Ok (v r w : value) :
  round_cell (replace_blank v) = Ok r -> to_int r = Ok w ->
  (exists z, v = VInt z /\ w = VInt z)
  \/ (exists q, v = VFloat q /\ w = VInt (round_half_even q)).
Proof.
  unfold replace_blank. case_bool_decide as Hblank; [by intros [= <-]|].
  destruct v as [s|z|q|]; simpl; try done.
  - intros [= <-] [= <-]. left. by exists z.
  - intros [= <-]. simpl. rewrite trunc_inject_Z. intros [= <-]. right.
    by exists q.
  - by intros [= <-].
Qed.

Lemma coerce_int_Ok (s s' : Series) :
  coerce_int s = Ok s' ->
  Forall2 (fun v w =>
             (exists z, v = VInt z /\ w = VInt z)
             \/ (exists q, v = VFloat q /\ w = VInt (round_half_even q)))
    s s'.
Proof.
  unfold coerce_int, round_series, astype_int. intros Hrun.
  apply bind_Ok in Hrun as (rounded & Hround & Hcast).
  apply mapM_Ok in Hround, Hcast. apply Forall2_fmap_l in Hround.
  eapply Forall2_chain; [|exact Hround|exact Hcast].
  intros v r w. apply int_cell_Ok.
Qed.



End Coercions.

(** ** The retired pipeline *)

Lemma NoDup_retired_columns : NoDup retired_columns.
Proof. decide_closed. Qed.

Section Retired.
Context `{Runtime}.

Lemma index_fixup_pre2001 (df df' : DataFrame) :
  fixup_pre2001 df = Ok df' -> index df' = index df.
Proof. by intros (nameplate & scaled & _ & _ & ->)%fixup_pre2001_Ok. Qed.

Lemma retired_rows_Ok (year : Z) (sheet df : DataFrame) :
  retired_rows year sheet = Ok df ->
  exists fixed es1 sector status,
    (if bool_decide (year <= 2000)
     then fixup_pre2001 (retired_frame year sheet)
     else Ok (retired_frame year sheet)) = Ok fixed
    /\ data "energy_source_1" fixed = [es1]
    /\ data "sector" fixed = [sector]
    /\ data "status" fixed = [status]
    /\ project retired_columns
         (filter_rows (retired_mask sector status)
            (setitem "energy_source" (replace_mapping es1) fixed))
       = Ok df.
Proof.
  unfold retired_rows. intros Hrun.
  apply bind_Ok in Hrun as (fixed & Hfixed & Hrun).
  apply bind_Ok in Hrun as (es1 & Hes1 & Hrun).
  apply bind_Ok in Hrun as (sector & Hsector & Hrun).
  apply bind_Ok in Hrun as (status & Hstatus & Hrun).
  apply pick_Ok in Hes1, Hsector, Hstatus.
  rewrite data_setitem_ne in Hsector, Hstatus by done.
  by exists fixed, es1, sector, status.
Qed.

Lemma coerce_column_Ok (c : string) (df df' : DataFrame) :
  coerce_column c df = Ok df' ->
  exists s s',
    data c df = [s] /\ coerce_int s = Ok s' /\ df' = setitem c s' df.
Proof.
  unfold coerce_column. intros Hrun.
  apply bind_Ok in Hrun as (s & Hs & Hrun).
  apply bind_Ok in Hrun as (s' & Hs' & [= <-]).
  apply pick_Ok in Hs. by exists s, s'.
Qed.

Lemma final_coercion_unfold (df : DataFrame) :
  final_coercion df
  = (df1 ← coerce_column "operating_year" df;
     df2 ← coerce_column "retirement_year" df1;
     coerce_column "nameplate_capacity" df2).
Proof.
  unfold final_coercion, final_columns. cbn [foldl]. rewrite bind_Ok_l.
  by destruct (coerce_column "operating_year" df).
Qed.

(** The closing loop replaces the three columns by their coercions and
    touches nothing else. *)
Lemma final_coercion_Ok (df out : DataFrame) :
  final_coercion df = Ok out ->
  exists oy oy' ry ry' np np',
    data "operating_year" df = [oy] /\ coerce_int oy = Ok oy'
    /\ data "retirement_year" df = [ry] /\ coerce_int ry = Ok ry'
    /\ data "nameplate_capacity" df = [np] /\ coerce_int np = Ok np'
    /\ out = setitem "nameplate_capacity" np'
               (setitem "retirement_year" ry'
                  (setitem "operating_year" oy' df)).
Proof.
  rewrite final_coercion_unfold. intros Hrun.
  apply bind_Ok in Hrun as (df1 & Hdf1 & Hrun).
  apply bind_Ok in Hrun as (df2 & Hdf2 & Hrun).
  apply coerce_column_Ok in Hdf1 as (oy & oy' & Hoy & Hoy' & ->).
  apply coerce_column_Ok in Hdf2 as (ry & ry' & Hry & Hry' & ->).
  apply coerce_column_Ok in Hrun as (np & np' & Hnp & Hnp' & ->).
  rewrite data_setitem_ne in Hry by done.
  rewrite !data_setitem_ne in Hnp by done.
  by exists oy, oy', ry, ry', np, np'.
Qed.

Lemma data_final_coercion (df out : DataFrame) (c : string) :
  final_coercion df = Ok out ->
  (c ∈ final_columns ->
   exists s s', data c df = [s] /\ coerce_int s = Ok s' /\ data c out = [s'])
  /\ (c ∉ final_columns -> data c out = data c df)
  /\ index out = index df
  /\ (c ∈ labels out <-> c ∈ labels df).
Proof.
  intros (oy & oy' & ry & ry' & np & np' & Hoy & Hoy' & Hry & Hry' & Hnp
          & Hnp' & ->)%final_coercion_Ok.
  repeat apply conj.
  - unfold final_columns. rewrite !elem_of_cons, elem_of_nil.
    intros [->|[->|[->|[]]]].
    + exists oy, oy'. repeat apply conj; [done..|].
      rewrite !data_setitem_ne by done. rewrite data_setitem_eq, Hoy.
      by case_bool_decide.
    + exists ry, ry'. repeat apply conj; [done..|].
      rewrite data_setitem_ne by done. rewrite data_setitem_eq.
      rewrite data_setitem_ne, Hry by done. by case_bool_decide.
    + exists np, np'. repeat apply conj; [done..|].
      rewrite data_setitem_eq, !data_setitem_ne, Hnp by done.
      by case_bool_decide.
  - unfold final_columns. intros Hc.
    repeat (apply not_elem_of_cons in Hc as [? Hc]).
    by rewrite !data_setitem_ne.
  - reflexivity.
  - rewrite !labels_setitem.
    intros [->|[->|[->|?]]]; [..|done]; apply elem_of_labels_data.
    + by rewrite Hnp.
    + by rewrite Hry.
    + by rewrite Hoy.
  - rewrite !labels_setitem. auto.
Qed.



Lemma parse_retired_Ok (year : Z) (sheet out : DataFrame) :
  parse_retired year sheet = Ok out <->
  exists df, retired_rows year sheet = Ok df /\ final_coercion df = Ok out.
Proof. unfold parse_retired. apply bind_Ok. Qed.

End Retired.

(** ** What the retired pipeline returns *)

Section RetiredOutput.
Context `{Runtime}.

(** C2 (as amended): when the retired pipeline returns, the labels of its
    frame are those of the projection list (utility_name, plant_name,
    plant_code, state, county, nameplate_capacity, energy_source,
    operating_year, retirement_year) and no other: the frame carries
    plant_code and energy_source, and it carries neither generator_uuid nor
    status, sector or energy_source_1. *)
Theorem retired_output_columns (year : Z) (sheet out : DataFrame) :
  parse_retired year sheet = Ok out ->
  (forall c, c ∈ labels out <-> c ∈ retired_columns)
  /\ Forall (fun c => c ∈ labels out)
       ["nameplate_capacity"; "energy_source"; "operating_year";
        "retirement_year"; "plant_code"]
  /\ Forall (fun c => c ∉ labels out)
       ["generator_uuid"; "status"; "sector"; "energy_source_1"].
Proof.
  intros (df & Hrows & Hfinal)%parse_retired_Ok.
  apply retired_rows_Ok in Hrows
    as (fixed & es1 & sector & status & _ & _ & _ & _ & Hproject).
  assert (forall c, c ∈ labels out <-> c ∈ retired_columns) as Hlabels.
  { intros c.
    destruct (data_final_coercion df out c Hfinal) as (_ & _ & _ & ->).
    by apply labels_project with (df := filter_rows (retired_mask sector status)
              (setitem "energy_source" (replace_mapping es1) fixed)). }
  split; [exact Hlabels|]. split.
  - apply Forall_forall. intros c Hc. apply Hlabels. revert c Hc.
    apply Forall_forall. decide_closed.
  - apply Forall_forall. intros c Hc. rewrite Hlabels. revert c Hc.
    apply Forall_forall. decide_closed.
Qed.

End RetiredOutput.

(** The 2018 sample: the run returns nine columns, none of them the key. *)
Lemma retired_output_columns_sample :
  parse_retired (H := sample_runtime) 2018 retired_sample
  = Ok retired_sample_out
  /\ labels retired_sample_out = retired_columns
  /\ (forall c, c ∈ labels retired_sample_out <-> c ∈ retired_columns).
Proof.
  assert (parse_retired (H := sample_runtime) 2018 retired_sample
          = Ok retired_sample_out) as Hrun by (vm_compute; reflexivity).
  split; [exact Hrun|]. split; [reflexivity|].
  exact (proj1 (retired_output_columns (H := sample_runtime) 2018
                  retired_sample retired_sample_out Hrun)).
Defined.

(** C2 (as stated) fails: the frame returned for the 2018 sample has no
    "generator_uuid" column (nor "status", "sector", "energy_source_1"). *)
Lemma retired_output_lacks_generator_uuid :
  ~ (forall (R : Runtime) year sheet out,
       parse_retired year sheet = Ok out ->
       Forall (fun c => c ∈ labels out)
         ["generator_uuid"; "status"; "sector"; "energy_source_1";
          "energy_source"; "nameplate_capacity"; "operating_year";
          "retirement_year"]).
Proof.
  intros Hall.
  assert (parse_retired (H := sample_runtime) 2018 retired_sample
          = Ok retired_sample_out) as Hrun by (vm_compute; reflexivity).
  apply Hall in Hrun. apply Forall_cons in Hrun as [Huuid _].
  revert Huuid. decide_closed.
Qed.

(** ** The closing coercion of the retired pipeline *)

Section RetiredCoercion.
Context `{Runtime}.


End RetiredCoercion.


(** ** Kilowatts to megawatts *)



Section Megawatts.
Context `{Runtime}.




End Megawatts.


(** ** The blank marker *)



Section Blank.
Context `{Runtime}.




End Blank.


(** ** Normalised labels *)

Lemma lower_char_idempotent (a : ascii) :
  Py.lower_char (Py.lower_char a) = Py.lower_char a.
Proof. destruct a as [[] [] [] [] [] [] [] []]; reflexivity. Qed.

Lemma all_chars_impl (p q : ascii -> bool) (s : string) :
  (forall a, p a = true -> q a = true) ->
  all_chars p s = true -> all_chars q s = true.
Proof.
  intros Hpq. induction s as [|a s IH]; [done|]. cbn [all_chars].
  rewrite !andb_true_iff. intros [Ha Hs]. auto.
Qed.

Lemma all_chars_lower (p : ascii -> bool) (s : string) :
  (forall a, p (Py.lower_char a) = true) ->
  all_chars p (Py.lower s) = true.
Proof.
  intros Hp. induction s as [|a s IH]; [done|]. cbn [Py.lower all_chars].
  by rewrite Hp, IH.
Qed.

Lemma all_chars_replace_char (p q : ascii -> bool) (old new : ascii)
    (s : string) :
  (forall a, q a = true ->
             p (if Ascii.eqb a old then new else a) = true) ->
  all_chars q s = true ->
  all_chars p (Py.replace_char old new s) = true.
Proof.
  intros Hp. induction s as [|a s IH]; [done|].
  cbn [Py.replace_char all_chars]. rewrite !andb_true_iff.
  intros [Ha Hs]. auto.
Qed.

Lemma all_chars_remove_char (p q : ascii -> bool) (old : ascii)
    (s : string) :
  (forall a, q a = true -> Ascii.eqb a old = false -> p a = true) ->
  all_chars q s = true ->
  all_chars p (Py.remove_char old s) = true.
Proof.
  intros Hp. induction s as [|a s IH]; [done|].
  cbn [Py.remove_char all_chars]. rewrite andb_true_iff. intros [Ha Hs].
  destruct (Ascii.eqb a old) eqn:Heq; [auto|].
  cbn [all_chars]. rewrite andb_true_iff. auto.
Qed.

Lemma all_chars_split_head (p : ascii -> bool) (sep s : string) :
  all_chars p s = true -> all_chars p (Py.split_head sep s) = true.
Proof.
  induction s as [|a s IH]; [done|]. cbn [Py.split_head all_chars].
  rewrite andb_true_iff. intros [Ha Hs].
  destruct (String.prefix sep (String a s)); [done|].
  cbn [all_chars]. rewrite andb_true_iff. auto.
Qed.

Lemma normalize_label_canonical (c : string) :
  all_chars canonical_char (normalize_label c) = true.
Proof.
  unfold normalize_label. apply all_chars_split_head.
  apply (all_chars_replace_char _
           (fun a => Ascii.eqb (Py.lower_char a) a
                     && negb (Ascii.eqb a " ") && negb (Ascii.eqb a "?"))).
  { intros a Ha. unfold canonical_char.
    destruct (Ascii.eqb_spec a "/") as [->|Hne]; [reflexivity|].
    rewrite Ha. by apply Ascii.eqb_neq in Hne as ->. }
  apply (all_chars_remove_char _
           (fun a => Ascii.eqb (Py.lower_char a) a
                     && negb (Ascii.eqb a " "))).
  { intros a Ha Hne. by rewrite Ha, Hne. }
  apply (all_chars_replace_char _
           (fun a => Ascii.eqb (Py.lower_char a) a)).
  { intros a Ha. destruct (Ascii.eqb_spec a " ") as [->|Hne]; [reflexivity|].
    rewrite Ha. by apply Ascii.eqb_neq in Hne as ->. }
  apply all_chars_lower. intros a. apply Ascii.eqb_eq.
  apply lower_char_idempotent.
Qed.

Lemma prefix_cons (a b : ascii) (s t : string) :
  String.prefix (String a s) (String b t)
  = Ascii.eqb a b && String.prefix s t.
Proof.
  cbn [String.prefix]. destruct (ascii_dec a b) as [->|Hne].
  - by rewrite Ascii.eqb_refl.
  - by apply Ascii.eqb_neq in Hne as ->.
Qed.

Lemma prefix_trans (s t u : string) :
  String.prefix s t = true -> String.prefix t u = true ->
  String.prefix s u = true.
Proof.
  revert t u. induction s as [|a s IH]; intros t u; [by destruct u|].
  destruct t as [|b t]; [done|]. destruct u as [|c u]; [done|].
  rewrite !prefix_cons, !andb_true_iff.
  intros [Hab Hst] [Hbc Htu]. apply Ascii.eqb_eq in Hab as ->.
  split; [done|]. by apply (IH t).
Qed.

Lemma split_head_prefix (sep s : string) :
  String.prefix (Py.split_head sep s) s = true.
Proof.
  induction s as [|a s IH]; [done|]. cbn [Py.split_head].
  destruct (String.prefix sep (String a s)); [done|].
  by rewrite prefix_cons, Ascii.eqb_refl.
Qed.

(** What precedes the first occurrence of a separator holds no occurrence
    of it. *)
Lemma contains_split_head (a : ascii) (sep s : string) :
  contains (String a sep) (Py.split_head (String a sep) s) = false.
Proof.
  induction s as [|b s IH]; [done|]. cbn [Py.split_head].
  destruct (String.prefix (String a sep) (String b s)) eqn:Hpre; [done|].
  cbn [contains]. rewrite IH, orb_false_r.
  destruct (String.prefix (String a sep)
              (String b (Py.split_head (String a sep) s))) eqn:Hpre';
    [|done].
  rewrite <- Hpre. symmetry. apply (prefix_trans _ _ _ Hpre').
  rewrite prefix_cons, Ascii.eqb_refl. apply split_head_prefix.
Qed.

Lemma contains_char (a : ascii) (s : string) :
  contains (String a EmptyString) s
  = negb (all_chars (fun b => negb (Ascii.eqb a b)) s).
Proof.
  induction s as [|b s IH]; [done|]. cbn [contains all_chars].
  rewrite prefix_cons, IH. cbn [String.prefix].
  destruct (Ascii.eqb a b), s; by rewrite ?andb_true_r, ?orb_false_r.
Qed.

Lemma split_head_id (sep s : string) :
  contains sep s = false -> Py.split_head sep s = s.
Proof.
  induction s as [|b s IH]; [done|]. cbn [contains Py.split_head].
  intros [Hpre Hs]%orb_false_iff. rewrite Hpre. f_equal. by apply IH.
Qed.

Lemma replace_char_id (old new : ascii) (s : string) :
  all_chars (fun b => negb (Ascii.eqb old b)) s = true ->
  Py.replace_char old new s = s.
Proof.
  induction s as [|b s IH]; [done|]. cbn [all_chars Py.replace_char].
  intros [Hb Hs]%andb_true_iff. rewrite Ascii.eqb_sym.
  apply negb_true_iff in Hb as ->. f_equal. by apply IH.
Qed.

Lemma remove_char_id (old : ascii) (s : string) :
  all_chars (fun b => negb (Ascii.eqb old b)) s = true ->
  Py.remove_char old s = s.
Proof.
  induction s as [|b s IH]; [done|]. cbn [all_chars Py.remove_char].
  intros [Hb Hs]%andb_true_iff. rewrite Ascii.eqb_sym.
  apply negb_true_iff in Hb as ->. f_equal. by apply IH.
Qed.

Lemma lower_id (s : string) :
  all_chars (fun b => Ascii.eqb (Py.lower_char b) b) s = true ->
  Py.lower s = s.
Proof.
  induction s as [|b s IH]; [done|]. cbn [all_chars Py.lower].
  intros [Hb%Ascii.eqb_eq Hs]%andb_true_iff. rewrite Hb. f_equal.
  by apply IH.
Qed.

(** The full normalisation leaves a string alone that is lowercase already
    and holds no space, question mark, slash or "_(". *)
Lemma normalize_label_id (s : string) :
  all_chars canonical_char s = true -> contains "_(" s = false ->
  normalize_label s = s.
Proof.
  intros Hs Hsep. unfold normalize_label.
  assert (forall p : ascii -> bool,
             (forall a, canonical_char a = true -> p a = true) ->
             all_chars p s = true) as Hchars.
  { intros p Hp. by apply (all_chars_impl canonical_char). }
  rewrite lower_id, (replace_char_id " " "_" s), (remove_char_id "?" s),
    (replace_char_id "/" "_" s), split_head_id; try done;
    apply Hchars; unfold canonical_char; intros a; rewrite !andb_true_iff;
    intros [[[Hlow Hsp] Hq] Hsl]; try done; by rewrite Ascii.eqb_sym.
Qed.

(** X1: a fully normalised label holds no space, no question mark, no
    slash and no "_(" and is in lower case. *)
Theorem normalize_label_has_no_punctuation (c : string) :
  contains " " (normalize_label c) = false
  /\ contains "?" (normalize_label c) = false
  /\ contains "/" (normalize_label c) = false
  /\ contains "_(" (normalize_label c) = false
  /\ Py.lower (normalize_label c) = normalize_label c.
Proof.
  pose proof (normalize_label_canonical c) as Hc.
  repeat apply conj.
  - rewrite contains_char. apply negb_false_iff.
    eapply all_chars_impl; [|exact Hc]. unfold canonical_char. intros a.
    rewrite !andb_true_iff. intros [[[_ Hsp] _] _]. by rewrite Ascii.eqb_sym.
  - rewrite contains_char. apply negb_false_iff.
    eapply all_chars_impl; [|exact Hc]. unfold canonical_char. intros a.
    rewrite !andb_true_iff. intros [[_ Hq] _]. by rewrite Ascii.eqb_sym.
  - rewrite contains_char. apply negb_false_iff.
    eapply all_chars_impl; [|exact Hc]. unfold canonical_char. intros a.
    rewrite !andb_true_iff. intros [_ Hsl]. by rewrite Ascii.eqb_sym.
  - unfold normalize_label. apply contains_split_head.
  - apply lower_id. eapply all_chars_impl; [|exact Hc].
    unfold canonical_char. intros a. rewrite !andb_true_iff.
    by intros [[[Hlow _] _] _].
Qed.

(** X2: normalising a label twice gives what normalising it once gives. *)
Theorem normalize_label_idempotent (c : string) :
  normalize_label (normalize_label c) = normalize_label c.
Proof.
  apply normalize_label_id; [apply normalize_label_canonical|].
  unfold normalize_label at 1. apply contains_split_head.
Qed.

Lemma all_chars_lower_from (p q : ascii -> bool) (s : string) :
  (forall a, q a = true -> p (Py.lower_char a) = true) ->
  all_chars q s = true -> all_chars p (Py.lower s) = true.
Proof.
  intros Hp. induction s as [|a s IH]; [done|].
  cbn [Py.lower all_chars]. rewrite !andb_true_iff. intros [Ha Hs]. auto.
Qed.

Lemma lower_lower (s : string) : Py.lower (Py.lower s) = Py.lower s.
Proof.
  induction s as [|a s IH]; [done|]. cbn [Py.lower].
  by rewrite lower_char_idempotent, IH.
Qed.

Lemma all_chars_and (p q : ascii -> bool) (s : string) :
  all_chars p s = true -> all_chars q s = true ->
  all_chars (fun a => p a && q a) s = true.
Proof.
  induction s as [|a s IH]; [done|]. cbn [all_chars].
  rewrite !andb_true_iff. intros [Hp Hps] [Hq Hqs]. auto.
Qed.

Lemma lower_char_canonical (a : ascii) :
  negb (Ascii.eqb " " a) && (negb (Ascii.eqb "?" a) && negb (Ascii.eqb "/" a))
  = true ->
  canonical_char (Py.lower_char a) = true.
Proof.
  destruct a as [[] [] [] [] [] [] [] []]; vm_compute; intros Ha;
    first [reflexivity|discriminate Ha].
Qed.

Lemma prefix_nil_l (s : string) : String.prefix EmptyString s = true.
Proof. by destruct s. Qed.

Lemma prefix_sep_lower (s : string) :
  String.prefix "_(" (Py.lower s) = String.prefix "_(" s.
Proof.
  destruct s as [|a [|b s]]; cbn [Py.lower]; [done| |].
  - rewrite !prefix_cons. by destruct (Ascii.eqb "_" a), (Ascii.eqb "_" _).
  - rewrite !prefix_cons, !prefix_nil_l.
    assert (forall c, Ascii.eqb "_" (Py.lower_char c) = Ascii.eqb "_" c)
      as Hus by (intros [[] [] [] [] [] [] [] []]; reflexivity).
    assert (forall c, Ascii.eqb "(" (Py.lower_char c) = Ascii.eqb "(" c)
      as Hpar by (intros [[] [] [] [] [] [] [] []]; reflexivity).
    by rewrite Hus, Hpar.
Qed.

Lemma contains_sep_lower (s : string) :
  contains "_(" (Py.lower s) = contains "_(" s.
Proof.
  induction s as [|a s IH]; [done|].
  change (Py.lower (String a s))
    with (String (Py.lower_char a) (Py.lower s)).
  cbn [contains]. rewrite IH. f_equal.
  apply (prefix_sep_lower (String a s)).
Qed.

(** X3: on a raw label that holds no space, question mark, slash or "_("
    the full normalisation only lowercases; for such a label the three
    pipelines agree for every year, 2010 included. *)
Theorem year_2010_exception_is_invisible_on_plain_labels (c : string) :
  contains " " c = false -> contains "?" c = false ->
  contains "/" c = false -> contains "_(" c = false ->
  normalize_label c = Py.lower c
  /\ forall year,
       operating_label year c = Py.lower c
       /\ proposed_label year c = Py.lower c
       /\ retired_label year c = Py.lower c.
Proof.
  intros Hsp Hq Hsl Hsep.
  assert (normalize_label c = Py.lower c) as Hnorm.
  { transitivity (normalize_label (Py.lower c)).
    { unfold normalize_label. by rewrite lower_lower. }
    apply normalize_label_id; [|by rewrite contains_sep_lower].
    rewrite contains_char in Hsp, Hq, Hsl.
    apply negb_false_iff in Hsp, Hq, Hsl.
    eapply all_chars_lower_from; [exact lower_char_canonical|].
    apply all_chars_and; [done|]. by apply all_chars_and. }
  split; [exact Hnorm|]. intros year.
  unfold operating_label, proposed_label, retired_label.
  by case_bool_decide.
Qed.

(** A label of the 2010 layout, to which the theorem applies. *)
Lemma year_2010_exception_is_invisible_sample :
  normalize_label "SECTOR_NAME" = "sector_name"
  /\ operating_label 2010 "SECTOR_NAME" = operating_label 2018 "SECTOR_NAME".
Proof.
  destruct (year_2010_exception_is_invisible_on_plain_labels "SECTOR_NAME"
              eq_refl eq_refl eq_refl eq_refl) as [Hnorm Hyear].
  split; [exact Hnorm|].
  destruct (Hyear 2010) as (-> & _). destruct (Hyear 2018) as (-> & _).
  reflexivity.
Defined.

(** ** Opening the source file *)

Lemma url_by_year_lookup (year : Z) :
  url_by_year !! year
  = if decide (2018 = year) then
      Some "https://www.eia.gov/electricity/data/eia860/xls/eia8602018.zip"
    else if decide (2010 = year) then
      Some "https://www.eia.gov/electricity/data/eia860/archive/xls/eia8602010.zip"
    else if decide (2000 = year) then
      Some "https://www.eia.gov/electricity/data/eia860/eia860a/eia860a2000.zip"
    else None.
Proof.
  unfold url_by_year. rewrite !lookup_insert, lookup_empty. reflexivity.
Qed.

Lemma dict_lookup_is_Some {V} (items : list (string * V)) (k : string) :
  k ∈ map fst items -> is_Some (Py.dict items !! k).
Proof.
  rewrite dict_lookup. intros Hk.
  assert (k ∈ map fst items \/ is_Some (@None V)) as Hacc by (by left).
  clear Hk. revert Hacc. generalize (@None V).
  induction items as [|[k' v] items IH]; intros acc Hacc; cbn [foldl].
  - destruct Hacc as [Hk|Hacc]; [|done]. by apply elem_of_nil in Hk.
  - apply IH. cbn [fst snd map] in *.
    destruct (decide (k' = k)) as [->|Hne]; [right; eauto|].
    destruct Hacc as [[->|Hk]%elem_of_cons|Hacc]; [done|by left|by right].
Qed.


Section GetFileProperties.
Context {File : Type} (archive : string -> list (string * File)).

(** X4: [_get_file] fails with the [KeyError] of [url_by_year] exactly
    for the years other than 2000, 2010 and 2018, whatever the archives
    hold. *)
Theorem get_file_unsupported_year (year : Z) :
  _get_file archive year = inl (NoUrl year)
  <-> year <> 2018 /\ year <> 2010 /\ year <> 2000.
Proof.
  unfold _get_file. rewrite url_by_year_lookup.
  destruct (decide (2018 = year)) as [<-|H2018];
    [|destruct (decide (2010 = year)) as [<-|H2010];
      [|destruct (decide (2000 = year)) as [<-|H2000]]].
  - split; [|intros [Hne _]; by destruct Hne].
    destruct (List.find _ _); [|done]. by destruct (zip_open _ _).
  - split; [|intros (_ & Hne & _); by destruct Hne].
    destruct (List.find _ _); [|done]. by destruct (zip_open _ _).
  - split; [|intros (_ & _ & Hne); by destruct Hne].
    destruct (List.find _ _); [|done]. by destruct (zip_open _ _).
  - split; [|done]. intros _. repeat split; congruence.
Qed.

Lemma find_namelist_opens (zipfile : list (string * File)) (name : string) :
  List.find (contains "Generator") (namelist zipfile) = Some name ->
  is_Some (zip_open zipfile name).
Proof.
  intros [Hin _]%find_some. apply dict_lookup_is_Some.
  by apply list_elem_of_In.
Qed.


(** X6: for 2010 and 2018 [_get_file] opens the first member, in archive
    order, whose name contains [Generator]; that name being a member,
    [ZipFile.open] raises no [KeyError]; and without such a member [next]
    raises [StopIteration]. *)
Theorem get_file_after_2000 (year : Z) :
  year = 2010 \/ year = 2018 ->
  exists url,
    url_by_year !! year = Some url
    /\ match List.find (contains "Generator") (namelist (archive url)) with
       | Some name =>
           exists file,
             _get_file archive year = inr file
             /\ zip_open (archive url) name = Some file
       | None => _get_file archive year = inl StopIteration
       end.
Proof.
  intros [-> | ->].
  - exists "https://www.eia.gov/electricity/data/eia860/archive/xls/eia8602010.zip".
    split; [by rewrite url_by_year_lookup|].
    unfold _get_file. rewrite url_by_year_lookup.
    rewrite decide_False, decide_True by done.
    cbv zeta. rewrite bool_decide_false by lia.
    destruct (List.find _ _) as [name|] eqn:Hfind; [|done].
    destruct (find_namelist_opens _ _ Hfind) as [file Hfile].
    exists file. by rewrite Hfile.
  - exists "https://www.eia.gov/electricity/data/eia860/xls/eia8602018.zip".
    split; [by rewrite url_by_year_lookup|].
    unfold _get_file. rewrite url_by_year_lookup.
    rewrite decide_True by done.
    cbv zeta. rewrite bool_decide_false by lia.
    destruct (List.find _ _) as [name|] eqn:Hfind; [|done].
    destruct (find_namelist_opens _ _ Hfind) as [file Hfile].
    exists file. by rewrite Hfile.
Qed.

End GetFileProperties.

(** On an archive of the 2018 layout the generator sheet is returned, not
    the wind sheet that follows it. *)
Lemma get_file_after_2000_sample :
  _get_file (fun _ => archive_2018) 2018 = inr 2%nat
  /\ exists url,
       url_by_year !! 2018 = Some url
       /\ match
            List.find (contains "Generator") (namelist archive_2018)
          with
          | Some name =>
              exists file,
                _get_file (fun _ => archive_2018) 2018 = inr file
                /\ zip_open archive_2018 name = Some file
          | None => _get_file (fun _ => archive_2018) 2018 = inl StopIteration
          end.
Proof.
  split; [vm_compute; reflexivity|].
  exact (get_file_after_2000 (fun _ => archive_2018) 2018
           (or_intror eq_refl)).
Defined.

(** ** Rows and columns of the operating frame *)

Lemma eq_str_lookup (x : string) (s : Series) (i : nat) :
  eq_str x s !! i = Some true <-> s !! i = Some (VStr x).
Proof.
  unfold eq_str. rewrite lookup_map.
  destruct (s !! i) as [v|]; cbn [fmap option_fmap option_map]; [|done].
  split.
  - by intros [= ->%bool_decide_eq_true].
  - intros [= ->]. by rewrite bool_decide_true.
Qed.

Lemma keep_map {A B} (f : A -> B) (mask : list bool) (l : list A) :
  keep mask (map f l) = map f (keep mask l).
Proof.
  revert l. induction mask as [|b mask IH]; intros [|x l]; cbn [keep map];
    [done..|].
  destruct b; cbn [map]; by rewrite IH.
Qed.

Lemma labels_filter_rows (mask : list bool) (df : DataFrame) :
  labels (filter_rows mask df) = labels df.
Proof.
  unfold labels, filter_rows; cbn [columns]. rewrite map_map.
  by apply map_ext.
Qed.

Lemma labels_drop_label (c c' : string) (idx : list value)
    (cols : list (string * Series)) :
  c' ∈ labels {| index := idx;
                 columns :=
                   List.filter (fun col => negb (has_label c col)) cols |}
  <-> c' <> c /\ c' ∈ map fst cols.
Proof.
  unfold labels; cbn [columns].
  induction cols as [|[c0 s0] l IH]; cbn [List.filter map fst].
  - split; [by intros ?%elem_of_nil|by intros [_ ?%elem_of_nil]].
  - unfold has_label at 1; cbn [fst].
    case_bool_decide as Hc0; cbn [negb map fst];
      rewrite ?elem_of_cons, IH.
    + subst c0. split; [tauto|]. intros [Hne [?|?]]; done.
    + split; [|tauto]. intros [->|[? ?]]; [by split; [|left]|tauto].
Qed.

Section OperatingRows.
Context `{Runtime}.

(** The frame the operating pipeline returns, column by column. *)
Lemma parse_generators_data (year : Z) (sheet out : DataFrame) :
  parse_generators year sheet = Ok out ->
  exists uuid status sector pry',
    generator_uuid (operating_frame year sheet) = Ok uuid
    /\ data "status" (operating_frame year sheet) = [status]
    /\ data "sector" (operating_frame year sheet) = [sector]
    /\ index out = keep (operating_mask status sector) uuid
    /\ data "planned_retirement_year" out
       = [keep (operating_mask status sector) pry']
    /\ (forall c,
          c ∈ operating_columns -> c <> "generator_uuid" ->
          c <> "planned_retirement_year" ->
          data c out
          = map (keep (operating_mask status sector))
              (data c (operating_frame year sheet)))
    /\ (exists es1,
          data "energy_source_1" (operating_frame year sheet) = [es1]
          /\ data "energy_source" out
             = [keep (operating_mask status sector) (replace_mapping es1)])
    /\ (forall c,
          c ∈ labels out <->
          c = "energy_source"
          \/ (c ∈ operating_columns /\ c <> "generator_uuid")).
Proof.
  intros (uuid & df & pry & pry' & es1 & status & sector & Huuid & Hdf
          & Hkey & _ & Hpry & Hpry' & Hes1 & Hstatus & Hsector
          & ->)%parse_generators_Ok.
  assert (set_index "generator_uuid" df
          = Ok {| index := uuid;
                  columns :=
                    List.filter
                      (fun col => negb (has_label "generator_uuid" col))
                      (columns df) |}) as Hindexed.
  { apply set_index_Ok. by exists uuid. }
  assert (forall c, c ∈ operating_columns -> c <> "generator_uuid" ->
                    data c df = data c (operating_frame year sheet))
    as Hframe.
  { intros c Hc Hne.
    rewrite (data_project _ _ _ c NoDup_operating_columns Hdf).
    rewrite bool_decide_true by done. by rewrite data_setitem_ne. }
  exists uuid, status, sector, pry'. repeat apply conj.
  - exact Huuid.
  - rewrite <- Hstatus. symmetry. apply Hframe; [decide_closed|done].
  - rewrite <- Hsector. symmetry. apply Hframe; [decide_closed|done].
  - reflexivity.
  - rewrite data_filter_rows, data_setitem_ne by done.
    rewrite data_setitem_eq.
    rewrite (data_set_index _ _ _ _ Hindexed), Hpry by done.
    by case_bool_decide.
  - intros c Hc Hkeyc Hpryc.
    rewrite data_filter_rows.
    rewrite data_setitem_ne by (intros ->; revert Hc; decide_closed).
    rewrite data_setitem_ne by done.
    rewrite (data_set_index _ _ _ _ Hindexed) by done.
    by rewrite Hframe.
  - exists es1. split.
    + rewrite <- Hes1. symmetry. apply Hframe; [decide_closed|done].
    + rewrite data_filter_rows, data_setitem_eq.
      rewrite bool_decide_false; [done|].
      rewrite labels_setitem, labels_drop_label.
      fold (labels df). rewrite (labels_project _ _ _ _ Hdf).
      intros [?|[_ Hin]]; [done|]. revert Hin. decide_closed.
  - intros c. rewrite labels_filter_rows, !labels_setitem, labels_drop_label.
    fold (labels df). rewrite (labels_project _ _ _ _ Hdf).
    split.
    + intros [->|[->|[? ?]]]; [by left| |by right].
      right. split; [decide_closed|done].
    + intros [->|[? ?]]; [by left|]. right. right. done.
Qed.

(** X7: when the operating pipeline returns, its rows are exactly the rows
    of the sheet whose status is OP and whose sector is Electric Utility,
    IPP Non-CHP or IPP: the mask holds at those positions and at no other,
    the index is the generator keys cut down to the mask, every projected
    column but the coerced one is the sheet's cut down to the mask, and
    every status left is OP and every sector left one of the three. *)
Theorem operating_keeps_operating_rows (year : Z) (sheet out : DataFrame) :
  parse_generators year sheet = Ok out ->
  exists uuid status sector : Series,
    generator_uuid (operating_frame year sheet) = Ok uuid
    /\ data "status" (operating_frame year sheet) = [status]
    /\ data "sector" (operating_frame year sheet) = [sector]
    /\ (forall i,
          operating_mask status sector !! i = Some true <->
          status !! i = Some (VStr "OP")
          /\ exists s,
               sector !! i = Some (VStr s)
               /\ s ∈ ["Electric Utility"; "IPP Non-CHP"; "IPP"])
    /\ index out = keep (operating_mask status sector) uuid
    /\ (forall c,
          c ∈ operating_columns -> c <> "generator_uuid" ->
          c <> "planned_retirement_year" ->
          data c out
          = map (keep (operating_mask status sector))
              (data c (operating_frame year sheet)))
    /\ data "status" out = [keep (operating_mask status sector) status]
    /\ data "sector" out = [keep (operating_mask status sector) sector]
    /\ (forall v,
          v ∈ keep (operating_mask status sector) status -> v = VStr "OP")
    /\ (forall v,
          v ∈ keep (operating_mask status sector) sector ->
          v ∈ map VStr ["Electric Utility"; "IPP Non-CHP"; "IPP"]).
Proof.
  intros (uuid & status & sector & pry' & Huuid & Hstatus & Hsector & Hindex
          & _ & Hdata & _ & _)%parse_generators_data.
  exists uuid, status, sector. repeat apply conj.
  - exact Huuid.
  - exact Hstatus.
  - exact Hsector.
  - intros i. unfold operating_mask.
    by rewrite zip_with_andb_lookup, eq_str_lookup, isin_lookup.
  - exact Hindex.
  - exact Hdata.
  - rewrite Hdata, Hstatus; [done|decide_closed|done|done].
  - rewrite Hdata, Hsector; [done|decide_closed|done|done].
  - intros v (i & Hm & Hv)%elem_of_keep. unfold operating_mask in Hm.
    apply zip_with_andb_lookup in Hm as [Hm _].
    apply eq_str_lookup in Hm. congruence.
  - intros v (i & Hm & Hv)%elem_of_keep. unfold operating_mask in Hm.
    apply zip_with_andb_lookup in Hm as [_ Hm].
    apply isin_lookup in Hm as (s & Hs & Hin).
    rewrite Hs in Hv. injection Hv as <-.
    apply elem_of_map_VStr. by exists s.
Qed.

(** X8: when the operating pipeline returns, the labels of its table are
    the ten projected ones without [generator_uuid], which has become the
    index, and [energy_source]; the index has no repeated key. *)
Theorem operating_output_labels (year : Z) (sheet out : DataFrame) :
  parse_generators year sheet = Ok out ->
  (forall c,
     c ∈ labels out <->
     c ∈ [ "utility_name"; "plant_name"; "state"; "county"; "status";
           "sector"; "nameplate_capacity"; "energy_source_1";
           "operating_year"; "planned_retirement_year"; "energy_source" ])
  /\ ("generator_uuid" ∉ labels out)
  /\ ("plant_code" ∉ labels out)
  /\ ("generator_id" ∉ labels out)
  /\ NoDup (index out).
Proof.
  intros Hrun.
  pose proof Hrun as (uuid & status & sector & pry' & _ & _ & _ & _
          & _ & _ & _ & Hlabels)%parse_generators_data.
  assert (forall c,
     c ∈ labels out <->
     c ∈ [ "utility_name"; "plant_name"; "state"; "county"; "status";
           "sector"; "nameplate_capacity"; "energy_source_1";
           "operating_year"; "planned_retirement_year"; "energy_source" ])
    as Hlist.
  { intros c. rewrite Hlabels. unfold operating_columns.
    rewrite !elem_of_cons, !elem_of_nil. split.
    - intros [->|[Hin Hne]]; [tauto|]. tauto.
    - intros Hin.
      repeat (destruct Hin as [->|Hin];
              [right; split; [tauto|done]|]).
      destruct Hin as [->|[]]. by left. }
  repeat apply conj.
  - exact Hlist.
  - rewrite Hlist. decide_closed.
  - rewrite Hlist. decide_closed.
  - rewrite Hlist. decide_closed.
  - apply parse_generators_Ok in Hrun
      as (uuid' & df & pry & pry2 & es1 & status' & sector' & _ & _ & _
          & Hnodup & _ & _ & _ & _ & _ & ->).
    unfold filter_rows; cbn [index]. rewrite !index_setitem; cbn [index].
    by apply NoDup_keep.
Qed.

(** X9: in the table the operating pipeline returns, [energy_source] is the
    classification of [energy_source_1], row by row: the raw code stays
    beside its category. *)
Theorem operating_energy_source_is_classified (year : Z)
    (sheet out : DataFrame) :
  parse_generators year sheet = Ok out ->
  exists raw : Series,
    data "energy_source_1" out = [raw]
    /\ data "energy_source" out = [map classify raw].
Proof.
  intros (uuid & status & sector & pry' & _ & _ & _ & _
          & _ & Hdata & (es1 & Hes1 & Hes) & _)%parse_generators_data.
  assert (data "energy_source" out
          = [map classify (keep (operating_mask status sector) es1)])
    as Hout.
  { rewrite Hes. unfold replace_mapping. by rewrite keep_map. }
  exists (keep (operating_mask status sector) es1). repeat apply conj.
  - rewrite Hdata, Hes1; [done|decide_closed|done|done].
  - exact Hout.
Qed.

End OperatingRows.

(** The sheet of four generators: the standby unit and the commercial
    owner's unit are dropped, and the theorem applies to the run. *)
Lemma operating_keeps_operating_rows_sample :
  parse_generators (H := sample_runtime) 2018 operating_sample_mixed
  = Ok operating_sample_mixed_out
  /\ index operating_sample_mixed_out = [VStr "123_A"; VStr "9_G1"]
  /\ exists uuid status sector : Series,
       data "status" (operating_frame 2018 operating_sample_mixed)
       = [status]
       /\ index operating_sample_mixed_out
          = keep (operating_mask status sector) uuid
       /\ forall v,
            v ∈ keep (operating_mask status sector) status ->
            v = VStr "OP".
Proof.
  assert (parse_generators (H := sample_runtime) 2018 operating_sample_mixed
          = Ok operating_sample_mixed_out) as Hrun
    by (vm_compute; reflexivity).
  split; [exact Hrun|]. split; [reflexivity|].
  destruct (operating_keeps_operating_rows (H := sample_runtime)
              2018 operating_sample_mixed operating_sample_mixed_out Hrun)
    as (uuid & status & sector & _ & Hstatus & _ & _ & Hindex & _ & _ & _
        & Hop & _).
  exists uuid, status, sector.
  split; [exact Hstatus|]. split; [exact Hindex|exact Hop].
Defined.

Lemma operating_output_labels_sample :
  parse_generators (H := sample_runtime) 2018 operating_sample_mixed
  = Ok operating_sample_mixed_out
  /\ ("generator_uuid" ∉ labels operating_sample_mixed_out)
  /\ NoDup (index operating_sample_mixed_out).
Proof.
  assert (parse_generators (H := sample_runtime) 2018 operating_sample_mixed
          = Ok operating_sample_mixed_out) as Hrun
    by (vm_compute; reflexivity).
  split; [exact Hrun|].
  destruct (operating_output_labels (H := sample_runtime)
              2018 operating_sample_mixed operating_sample_mixed_out Hrun)
    as (_ & Hkey & _ & _ & Hnodup).
  split; [exact Hkey|exact Hnodup].
Defined.

(** On the sample, the unknown code XYZ of the fourth generator stays as it
    is in [energy_source]. *)
Lemma operating_energy_source_sample :
  parse_generators (H := sample_runtime) 2018 operating_sample_mixed
  = Ok operating_sample_mixed_out
  /\ data "energy_source" operating_sample_mixed_out
     = [[VStr "coal"; VStr "XYZ"]]
  /\ exists raw : Series,
       data "energy_source_1" operating_sample_mixed_out = [raw]
       /\ data "energy_source" operating_sample_mixed_out
          = [map classify raw].
Proof.
  assert (parse_generators (H := sample_runtime) 2018 operating_sample_mixed
          = Ok operating_sample_mixed_out) as Hrun
    by (vm_compute; reflexivity).
  split; [exact Hrun|]. split; [reflexivity|].
  destruct (operating_energy_source_is_classified (H := sample_runtime)
              2018 operating_sample_mixed operating_sample_mixed_out Hrun)
    as (raw & Hraw & Hes).
  exists raw. split; [exact Hraw|exact Hes].
Defined.


(** ** Columns of the proposed frame *)

Section ProposedColumns.
Context `{Runtime}.

(** X10: when the proposed pipeline returns, the labels of its table are
    the ten projected ones and [energy_source], and [energy_source] is the
    classification of the [energy_source_1] that is left, row by row. *)
Theorem proposed_energy_source_is_classified (year : Z)
    (sheet out : DataFrame) :
  parse_proposed year sheet = Ok out ->
  (forall c, c ∈ labels out <-> c ∈ proposed_columns \/ c = "energy_source")
  /\ exists raw : Series,
       data "energy_source_1" out = [raw]
       /\ data "energy_source" out = [map classify raw].
Proof.
  intros (df & sector & status & es1 & ey & ey' & Hdf & _ & _ & Hes1 & _
          & _ & ->)%parse_proposed_Ok.
  assert (forall c, c ∈ labels (filter_rows (proposed_mask sector status) df)
                    <-> c ∈ proposed_columns) as Hlabels.
  { intros c. rewrite labels_filter_rows.
    exact (labels_project _ _ _ c Hdf). }
  split.
  - intros c. rewrite !labels_setitem, Hlabels. split.
    + intros [->|[->|?]]; [left; decide_closed|by right|by left].
    + intros [Hc| ->]; [by right; right|by right; left].
  - exists (keep (proposed_mask sector status) es1). split.
    + rewrite !data_setitem_ne by done.
      by rewrite data_filter_rows, Hes1.
    + rewrite data_setitem_ne by done. rewrite data_setitem_eq.
      rewrite bool_decide_false; [done|].
      rewrite Hlabels. decide_closed.
Qed.

End ProposedColumns.

Lemma proposed_energy_source_sample :
  parse_proposed (H := sample_runtime) 2018 proposed_sample
  = Ok proposed_sample_out
  /\ data "energy_source" proposed_sample_out
     = [[VStr "natural gas"; VStr "wind"]]
  /\ exists raw : Series,
       data "energy_source_1" proposed_sample_out = [raw]
       /\ data "energy_source" proposed_sample_out = [map classify raw].
Proof.
  assert (parse_proposed (H := sample_runtime) 2018 proposed_sample
          = Ok proposed_sample_out) as Hrun
    by (vm_compute; reflexivity).
  split; [exact Hrun|]. split; [reflexivity|].
  exact (proj2 (proposed_energy_source_is_classified (H := sample_runtime)
                  2018 proposed_sample proposed_sample_out Hrun)).
Defined.

(** ** Rows and columns of the retired frame *)

Lemma keep_take {A} (mask : list bool) (l : list A) :
  keep (take (length l) mask) l = keep mask l.
Proof.
  revert l. induction mask as [|b mask IH]; intros [|x l];
    cbn [length take keep]; [done..|].
  by rewrite IH.
Qed.

Lemma keep_replicate {A B} (mask : list bool) (l : list A) (x : B) :
  keep mask (replicate (length l) x)
  = replicate (length (keep mask l)) x.
Proof.
  revert l. induction mask as [|b mask IH]; intros [|y l];
    cbn [length replicate keep]; [done..|].
  destruct b; cbn [length replicate]; by rewrite IH.
Qed.

Lemma zip_with_andb_true (n : nat) (l : list bool) :
  zip_with andb (replicate n true) l = take n l.
Proof.
  revert l. induction n as [|n IH]; intros [|b l];
    cbn [replicate zip_with take]; [done..|].
  by rewrite IH.
Qed.

Lemma isin_replicate (xs : list string) (n : nat) (x : string) :
  x ∈ xs -> isin xs (replicate n (VStr x)) = replicate n true.
Proof.
  intros Hx. unfold isin. induction n as [|n IH]; cbn [replicate map];
    [done|].
  rewrite IH. f_equal. apply bool_decide_eq_true.
  apply elem_of_map_VStr. by exists x.
Qed.

(** Every column that carries the label just assigned holds the assigned
    data. *)
Lemma data_setitem_all (c : string) (s : Series) (df : DataFrame) :
  data c (setitem c s df) <> []
  /\ Forall (fun s' => s' = s) (data c (setitem c s df)).
Proof.
  rewrite data_setitem_eq. case_bool_decide as Hc.
  - apply elem_of_labels_data in Hc. split.
    + by destruct (data c df).
    + apply List.Forall_map. by apply Forall_true.
  - split; [done|]. by repeat constructor.
Qed.

Lemma relabel_pre2001_sector (c' : string) :
  bool_decide (relabel rename_pre2001 c' = "sector")
  = bool_decide (c' = "sector").
Proof. dict_cases. Qed.

Lemma data_setitem_scalar_all (c : string) (v : value) (df : DataFrame)
    (n : nat) :
  length (index df) = n ->
  data c (setitem_scalar c v df) <> []
  /\ Forall (fun s => s = replicate n v) (data c (setitem_scalar c v df)).
Proof. intros <-. apply data_setitem_all. Qed.

(** Assigning to a label leaves alone what a later rename selects under
    another one. *)
Lemma data_rename_setitem_ne (mapper : gmap string string) (c c' : string)
    (s : Series) (df : DataFrame) :
  relabel mapper c' <> c ->
  data c (rename mapper (setitem c' s df)) = data c (rename mapper df).
Proof.
  intros Hne. rewrite !select_rename, setitem_columns. f_equal.
  case_bool_decide as Hc'.
  - clear Hc'.
    assert (forall col : string * Series,
              has_label c' col = true ->
              bool_decide (relabel mapper col.1 = c) = false) as Hout.
    { intros [c0 s0] Hc0%bool_decide_eq_true. cbn [fst] in *. subst c0.
      by apply bool_decide_eq_false. }
    induction (columns df) as [|col l IH]; [done|].
    cbn [map List.filter].
    destruct (has_label c' col) eqn:Hcol.
    + cbn [fst]. rewrite (Hout col Hcol).
      rewrite (bool_decide_false (relabel mapper c' = c)) by done.
      exact IH.
    + by rewrite IH.
  - rewrite List.filter_app. cbn [List.filter fst].
    rewrite bool_decide_false by done. by rewrite app_nil_r.
Qed.

(** One failing cell decides the outcome of a cell-wise operation whose
    failures are all of one kind. *)
Lemma mapM_Raise {A B} (f : A -> result B) (e : exn) (l : list A) (x : A) :
  (forall y, (exists z, f y = Ok z) \/ f y = Raise e) ->
  x ∈ l -> f x = Raise e -> mapM f l = Raise e.
Proof.
  intros Hf Hx Hfx. induction l as [|y l IH]; [by apply elem_of_nil in Hx|].
  simpl. apply elem_of_cons in Hx as [<-|Hx].
  - by rewrite Hfx.
  - destruct (Hf y) as [[z ->]| ->]; [|done].
    rewrite bind_Ok_l, (IH Hx). reflexivity.
Qed.

Section RetiredRows.
Context `{Runtime}.

(** The frame the retired pipeline returns, in terms of the frame that
    leaves the [year <= 2000] branch. *)
Lemma parse_retired_data (year : Z) (sheet out : DataFrame) :
  parse_retired year sheet = Ok out ->
  exists fixed es1 sector status,
    (if bool_decide (year <= 2000)
     then fixup_pre2001 (retired_frame year sheet)
     else Ok (retired_frame year sheet)) = Ok fixed
    /\ data "energy_source_1" fixed = [es1]
    /\ data "sector" fixed = [sector]
    /\ data "status" fixed = [status]
    /\ index out = keep (retired_mask sector status) (index sheet)
    /\ (forall c,
          c ∈ ["utility_name"; "plant_name"; "plant_code"; "state";
               "county"] ->
          data c out
          = map (keep (retired_mask sector status)) (data c fixed))
    /\ data "energy_source" out <> []
    /\ Forall
         (fun s =>
            s = map classify (keep (retired_mask sector status) es1))
         (data "energy_source" out).
Proof.
  intros Hrun. apply parse_retired_Ok in Hrun as (df & Hrows & Hfinal).
  pose proof (fun c => data_final_coercion df out c Hfinal) as Hout.
  apply retired_rows_Ok in Hrows
    as (fixed & es1 & sector & status & Hfixed & Hes1 & Hsector & Hstatus
        & Hdf).
  pose proof (fun c => data_project _ _ _ c NoDup_retired_columns Hdf)
    as Hdata.
  exists fixed, es1, sector, status. repeat apply conj; try done.
  - rewrite (proj1 (proj2 (proj2 (Hout "state")))).
    rewrite (index_project _ _ _ Hdf), index_filter_rows, index_setitem.
    f_equal. case_bool_decide.
    + by rewrite (index_fixup_pre2001 _ _ Hfixed).
    + by injection Hfixed as <-.
  - intros c Hc.
    assert ((c ∉ final_columns) /\ c ∈ retired_columns
            /\ c <> "energy_source") as (Hf & Hr & Hne).
    { repeat (apply elem_of_cons in Hc as [->|Hc]);
        [decide_closed..|by apply elem_of_nil in Hc]. }
    rewrite (proj1 (proj2 (Hout c)) Hf).
    rewrite Hdata, bool_decide_true by done.
    by rewrite data_filter_rows, data_setitem_ne.
  - rewrite (proj1 (proj2 (Hout "energy_source"))) by decide_closed.
    rewrite Hdata, bool_decide_true by decide_closed.
    rewrite data_filter_rows.
    destruct (data_setitem_all "energy_source" (replace_mapping es1) fixed)
      as [Hne _].
    intros Hnil. apply Hne. exact (List.map_eq_nil _ _ Hnil).
  - rewrite (proj1 (proj2 (Hout "energy_source"))) by decide_closed.
    rewrite Hdata, bool_decide_true by decide_closed.
    rewrite data_filter_rows. apply List.Forall_map.
    destruct (data_setitem_all "energy_source" (replace_mapping es1) fixed)
      as [_ Hall].
    eapply Forall_impl; [exact Hall|]. intros s ->.
    unfold replace_mapping. by rewrite keep_map.
Qed.

(** What the [year <= 2000] branch leaves under [status], under [sector]
    and under the four labels it blanks. *)
Lemma fixup_pre2001_data (df fixed : DataFrame) :
  fixup_pre2001 df = Ok fixed ->
  data "status" fixed = data "status" (rename rename_pre2001 df)
  /\ data "energy_source_1" fixed
     = data "energy_source_1" (rename rename_pre2001 df)
  /\ Forall
       (fun s => s = replicate (length (index df)) (VStr "Electric Utility"))
       (data "sector" fixed)
  /\ forall c,
       c ∈ ["utility_name"; "plant_name"; "state"; "county"] ->
       data c fixed <> []
       /\ Forall
            (fun s => s = replicate (length (index df)) (VStr EmptyString))
            (data c fixed).
Proof.
  intros (nameplate & scaled & _ & _ & ->)%fixup_pre2001_Ok.
  repeat apply conj.
  - rewrite data_setitem_ne, !data_setitem_scalar_ne by done.
    unfold setitem_scalar. by apply data_rename_setitem_ne.
  - rewrite data_setitem_ne, !data_setitem_scalar_ne by done.
    unfold setitem_scalar. by apply data_rename_setitem_ne.
  - rewrite data_setitem_ne, !data_setitem_scalar_ne by done.
    rewrite (select_rename_from _ _ "sector")
      by exact relabel_pre2001_sector.
    by apply data_setitem_scalar_all.
  - intros c Hc.
    repeat (apply elem_of_cons in Hc as [->|Hc]);
      [..|by apply elem_of_nil in Hc];
      rewrite data_setitem_ne by done;
      rewrite ?data_setitem_scalar_ne by done;
      by apply data_setitem_scalar_all.
Qed.

(** X11: for a year after 2000, when the retired pipeline returns, its rows
    are exactly the rows of the sheet whose sector is IPP Non-CHP or
    Electric Utility and whose status is RE: the mask holds at those
    positions and at no other, the index and the five descriptive columns
    are the sheet's cut down to the mask, and every [energy_source] column
    is the classification of the [energy_source_1] cells of the rows
    kept. *)
Theorem retired_keeps_retired_rows (year : Z) (sheet out : DataFrame) :
  2000 < year ->
  parse_retired year sheet = Ok out ->
  exists sector status es1 : Series,
    data "sector" (retired_frame year sheet) = [sector]
    /\ data "status" (retired_frame year sheet) = [status]
    /\ data "energy_source_1" (retired_frame year sheet) = [es1]
    /\ (forall i,
          retired_mask sector status !! i = Some true <->
          (exists s,
             sector !! i = Some (VStr s)
             /\ s ∈ ["IPP Non-CHP"; "Electric Utility"])
          /\ status !! i = Some (VStr "RE"))
    /\ index out = keep (retired_mask sector status) (index sheet)
    /\ (forall c,
          c ∈ ["utility_name"; "plant_name"; "plant_code"; "state";
               "county"] ->
          data c out
          = map (keep (retired_mask sector status))
              (data c (retired_frame year sheet)))
    /\ data "energy_source" out <> []
    /\ Forall
         (fun s =>
            s = map classify (keep (retired_mask sector status) es1))
         (data "energy_source" out).
Proof.
  intros Hyear (fixed & es1 & sector & status & Hfixed & Hes1 & Hsector
                & Hstatus & Hindex & Hdata & Hne & Hes)%parse_retired_data.
  rewrite bool_decide_false in Hfixed by lia. injection Hfixed as <-.
  exists sector, status, es1. repeat apply conj; try assumption.
  intros i. unfold retired_mask.
  by rewrite zip_with_andb_lookup, eq_str_lookup, isin_lookup.
Qed.

(** X12: for a year up to 2000, when the retired pipeline returns, the
    sheet's own sector plays no part: the rows returned are exactly those
    whose status, read after the branch's rename, is RE; and every cell of
    [utility_name], [plant_name], [state] and [county] in the result is the
    empty string. *)
Theorem retired_2000_rows (year : Z) (sheet out : DataFrame) :
  year <= 2000 ->
  parse_retired year sheet = Ok out ->
  exists status : Series,
    data "status" (rename rename_pre2001 (retired_frame year sheet))
    = [status]
    /\ index out = keep (eq_str "RE" status) (index sheet)
    /\ forall c,
         c ∈ ["utility_name"; "plant_name"; "state"; "county"] ->
         data c out <> []
         /\ Forall
              (fun s =>
                 s = replicate (length (index out)) (VStr EmptyString))
              (data c out).
Proof.
  intros Hyear (fixed & es1 & sector & status & Hfixed & Hes1 & Hsector
                & Hstatus & Hindex & Hdata & _)%parse_retired_data.
  rewrite bool_decide_true in Hfixed by done.
  apply fixup_pre2001_data in Hfixed
    as (Hst & _ & Hsec & Hblank).
  rewrite Hsector in Hsec. apply Forall_inv in Hsec.
  change (index (retired_frame year sheet)) with (index sheet)
    in Hsec, Hblank.
  assert (keep (retired_mask sector status) (index sheet)
          = keep (eq_str "RE" status) (index sheet)) as Hmask.
  { unfold retired_mask. rewrite Hsec.
    rewrite isin_replicate by decide_closed.
    by rewrite zip_with_andb_true, keep_take. }
  exists status. repeat apply conj.
  - by rewrite <- Hst.
  - by rewrite Hindex.
  - intros c Hc. destruct (Hblank c Hc) as [Hne Hall].
    rewrite Hdata
      by (repeat (apply elem_of_cons in Hc as [->|Hc]);
          [decide_closed..|by apply elem_of_nil in Hc]).
    split.
    + intros Hnil. apply Hne. exact (List.map_eq_nil _ _ Hnil).
    + apply List.Forall_map. eapply Forall_impl; [exact Hall|].
      intros s ->. by rewrite Hindex, keep_replicate.
Qed.

(** X13: for a year up to 2000 the division by 1000 runs over the whole
    capacity column before any row is dropped, so that one text cell in it,
    in whatever row, makes the retired pipeline raise [TypeError]. *)
Theorem retired_2000_text_nameplate_raises (year : Z) (sheet : DataFrame)
    (raw : Series) (s : string) :
  year <= 2000 ->
  data "nameplate_capacity"
    (rename rename_pre2001 (retired_frame year sheet)) = [raw] ->
  VStr s ∈ raw ->
  parse_retired year sheet = Raise TypeError.
Proof.
  intros Hyear Hraw Hs. unfold parse_retired, retired_rows.
  rewrite bool_decide_true by done. unfold fixup_pre2001.
  assert (getattr "nameplate_capacity"
            (setitem_scalar "county" (VStr EmptyString)
               (setitem_scalar "state" (VStr EmptyString)
                  (setitem_scalar "plant_name" (VStr EmptyString)
                     (setitem_scalar "utility_name" (VStr EmptyString)
                        (rename rename_pre2001
                           (setitem_scalar "sector" (VStr "Electric Utility")
                              (retired_frame year sheet)))))))
          = Ok raw) as ->.
  { apply pick_Ok. rewrite !data_setitem_scalar_ne by done.
    unfold setitem_scalar. by rewrite data_rename_setitem_ne. }
  rewrite bind_Ok_l.
  rewrite (mapM_Raise truediv_1000 TypeError raw (VStr s)); [done| |done..].
  intros [?|?|?|]; cbn; eauto.
Qed.

End RetiredRows.

(** The 2018 sample: the commercial owner's unit and the cancelled one are
    dropped. *)
Lemma retired_keeps_retired_rows_sample :
  parse_retired (H := sample_runtime) 2018 retired_sample
  = Ok retired_sample_out
  /\ index retired_sample_out = [VInt 0]
  /\ exists sector status es1 : Series,
       data "status" (retired_frame 2018 retired_sample) = [status]
       /\ index retired_sample_out
          = keep (retired_mask sector status) (index retired_sample)
       /\ Forall
            (fun s =>
               s = map classify (keep (retired_mask sector status) es1))
            (data "energy_source" retired_sample_out).
Proof.
  assert (parse_retired (H := sample_runtime) 2018 retired_sample
          = Ok retired_sample_out) as Hrun
    by (vm_compute; reflexivity).
  split; [exact Hrun|]. split; [reflexivity|].
  destruct (retired_keeps_retired_rows (H := sample_runtime)
              2018 retired_sample retired_sample_out eq_refl Hrun)
    as (sector & status & es1 & _ & Hstatus & _ & _ & Hindex & _ & _ & Hes).
  exists sector, status, es1.
  split; [exact Hstatus|]. split; [exact Hindex|exact Hes].
Defined.

(** The 2000 sample has no sector column at all; the unit still operating
    is dropped, the two retired ones stay. *)
Lemma retired_2000_rows_sample :
  parse_retired (H := sample_runtime) 2000 retired_sample_2000
  = Ok retired_sample_2000_out
  /\ index retired_sample_2000_out = [VInt 0; VInt 2]
  /\ data "county" retired_sample_2000_out
     = [[VStr EmptyString; VStr EmptyString]]
  /\ exists status : Series,
       data "status"
         (rename rename_pre2001 (retired_frame 2000 retired_sample_2000))
       = [status]
       /\ index retired_sample_2000_out
          = keep (eq_str "RE" status) (index retired_sample_2000).
Proof.
  assert (parse_retired (H := sample_runtime) 2000 retired_sample_2000
          = Ok retired_sample_2000_out) as Hrun
    by (vm_compute; reflexivity).
  split; [exact Hrun|]. split; [reflexivity|]. split; [reflexivity|].
  destruct (retired_2000_rows (H := sample_runtime)
              2000 retired_sample_2000 retired_sample_2000_out
              ltac:(discriminate) Hrun)
    as (status & Hstatus & Hindex & _).
  exists status. split; [exact Hstatus|exact Hindex].
Defined.

(** The text cell sits in the row of the unit that is still operating, a
    row the filter would have dropped. *)
Lemma retired_2000_text_nameplate_sample :
  data "status"
    (rename rename_pre2001 (retired_frame 2000 retired_sample_2000_text))
  = [[VStr "RE"; VStr "OP"; VStr "RE"]]
  /\ data "nameplate_capacity"
       (rename rename_pre2001 (retired_frame 2000 retired_sample_2000_text))
     = [[VInt 12500; VStr "n/a"; VInt 3499]]
  /\ parse_retired (H := sample_runtime) 2000 retired_sample_2000_text
     = Raise TypeError.
Proof.
  split; [vm_compute; reflexivity|]. split; [vm_compute; reflexivity|].
  apply (retired_2000_text_nameplate_raises (H := sample_runtime)
           2000 retired_sample_2000_text
           [VInt 12500; VStr "n/a"; VInt 3499] "n/a").
  - discriminate.
  - vm_compute; reflexivity.
  - decide_closed.
Defined.

(** ** What the pipelines raise *)

Lemma pick_missing (missing : exn) (c : string) (df : DataFrame) :
  c ∉ labels df -> pick missing c df = Raise missing.
Proof.
  intros Hc. rewrite pick_data.
  destruct (data c df) eqn:Hdata; [done|].
  exfalso. apply Hc, elem_of_labels_data. by rewrite Hdata.
Qed.

Lemma project_missing (cs : list string) (df : DataFrame) (c : string) :
  c ∈ cs -> c ∉ labels df -> project cs df = Raise KeyError.
Proof.
  intros Hc Hmiss. destruct (project_Raise cs df) as [|[df' Hdf]]; [done|].
  apply project_Ok in Hdf as [Hall _].
  rewrite Forall_forall in Hall. by destruct (Hmiss (Hall c Hc)).
Qed.

Section Errors.
Context `{Runtime}.

(** X14: a generator id that was read as a number, in whatever row, makes
    the operating pipeline raise [TypeError] from the concatenation that
    builds the key. *)
Theorem numeric_generator_id_raises (year : Z) (sheet : DataFrame)
    (plant_code generator_id : Series) (i : nat) (v : value) :
  data "plant_code" (operating_frame year sheet) = [plant_code] ->
  data "generator_id" (operating_frame year sheet) = [generator_id] ->
  (i < length plant_code)%nat ->
  generator_id !! i = Some v ->
  is_Some (number v) ->
  parse_generators year sheet = Raise TypeError.
Proof.
  intros Hpc Hgid Hi Hv Hnum. unfold parse_generators, generator_uuid.
  apply pick_Ok with (missing := AttributeError) in Hpc, Hgid.
  unfold getattr. rewrite Hpc, bind_Ok_l, Hgid, bind_Ok_l.
  unfold add_series.
  destruct (lookup_lt_is_Some_2
              (map (fun s => s +:+ "_") (astype_str plant_code)) i)
    as [left Hleft].
  { unfold astype_str. by rewrite !length_map. }
  rewrite (mapM_Raise (fun p : string * value => str_add p.1 p.2) TypeError
             _ (left, v)); [done| | |].
  - intros [l [?|?|?|]]; cbn; eauto.
  - apply (list_elem_of_lookup_2 _ i). rewrite lookup_zip_with.
    rewrite Hleft, Hv. reflexivity.
  - cbn. destruct v; try done; by destruct Hnum.
Qed.

(** X15: when no label of the sheet normalises to [plant_code], the
    operating pipeline raises [AttributeError] at its first column access.
    This is what the year 2010 does to a sheet headed "Plant Code": the
    label is lowercased to "plant code" and stays that. *)
Theorem operating_without_plant_code_raises (year : Z) (sheet : DataFrame) :
  (forall c, c ∈ labels sheet -> operating_label year c <> "plant_code") ->
  parse_generators year sheet = Raise AttributeError.
Proof.
  intros Hraw. unfold parse_generators, generator_uuid, getattr.
  rewrite (pick_missing AttributeError "plant_code"); [done|].
  unfold operating_frame. rewrite normalize_columns_labels.
  intros (c & Hc & Hin)%list_elem_of_fmap.
  apply (Hraw c Hin). revert Hc. generalize (operating_label year c).
  intros l. dict_cases.
Qed.

(** X16: when one of the ten projected labels is the label of no column of
    the renamed proposed sheet, the proposed pipeline raises [KeyError],
    before any row is looked at. *)
Theorem proposed_missing_column_raises (year : Z) (sheet : DataFrame)
    (c : string) :
  c ∈ proposed_columns ->
  c ∉ labels (proposed_frame year sheet) ->
  parse_proposed year sheet = Raise KeyError.
Proof.
  intros Hc Hmiss. unfold parse_proposed.
  by rewrite (project_missing _ _ c Hc Hmiss).
Qed.

(** X17: the retired pipeline raises [AttributeError] at its first column
    access when that column is missing: [nameplate_capacity] after the
    rename of the [year <= 2000] branch, [energy_source_1] for a later
    year. *)
Theorem retired_missing_column_raises (year : Z) (sheet : DataFrame) :
  (if bool_decide (year <= 2000)
   then "nameplate_capacity"
        ∉ labels (rename rename_pre2001 (retired_frame year sheet))
   else "energy_source_1" ∉ labels (retired_frame year sheet)) ->
  parse_retired year sheet = Raise AttributeError.
Proof.
  intros Hmiss. unfold parse_retired, retired_rows.
  case_bool_decide as Hyear.
  - unfold fixup_pre2001, getattr. rewrite pick_missing; [done|].
    rewrite elem_of_labels_data, !data_setitem_scalar_ne by done.
    unfold setitem_scalar. rewrite data_rename_setitem_ne by done.
    by rewrite <- elem_of_labels_data.
  - rewrite bind_Ok_l. unfold getattr. by rewrite pick_missing.
Qed.

End Errors.

Lemma numeric_generator_id_sample :
  data "generator_id" (operating_frame 2018 operating_sample_numeric)
  = [[VStr "A"; VInt 2]]
  /\ parse_generators (H := sample_runtime) 2018 operating_sample_numeric
     = Raise TypeError.
Proof.
  split; [vm_compute; reflexivity|].
  apply (numeric_generator_id_raises (H := sample_runtime)
           2018 operating_sample_numeric [VInt 123; VInt 123]
           [VStr "A"; VInt 2] 1 (VInt 2)).
  - vm_compute; reflexivity.
  - vm_compute; reflexivity.
  - cbn; lia.
  - reflexivity.
  - by eexists.
Defined.

(** The sheet that the year 2018 parses is rejected under the year 2010. *)
Lemma operating_without_plant_code_sample :
  parse_generators (H := sample_runtime) 2018 operating_sample
  = Ok operating_sample_out
  /\ parse_generators (H := sample_runtime) 2010 operating_sample
     = Raise AttributeError.
Proof.
  split; [vm_compute; reflexivity|].
  apply (operating_without_plant_code_raises (H := sample_runtime)
           2010 operating_sample).
  intros c Hc.
  repeat (apply elem_of_cons in Hc as [->|Hc]);
    [by vm_compute..|by apply elem_of_nil in Hc].
Defined.

Lemma proposed_missing_column_sample :
  parse_proposed (H := sample_runtime) 2018 proposed_sample_short
  = Raise KeyError.
Proof.
  apply (proposed_missing_column_raises (H := sample_runtime)
           2018 proposed_sample_short "county"); decide_closed.
Defined.

Lemma retired_missing_column_sample :
  parse_retired (H := sample_runtime) 2018 retired_sample_short
  = Raise AttributeError.
Proof.
  apply (retired_missing_column_raises (H := sample_runtime)
           2018 retired_sample_short).
  rewrite bool_decide_false by lia. decide_closed.
Defined.

(** ** Generator keys *)

Lemma all_chars_app (p : ascii -> bool) (s t : string) :
  all_chars p (s +:+ t) = all_chars p s && all_chars p t.
Proof.
  induction s as [|a s IH]; [done|]. simpl.
  by rewrite IH, andb_assoc.
Qed.

Lemma pretty_N_char_plain (x : N) : plain_char (pretty_N_char x) = true.
Proof. unfold pretty_N_char. by repeat case_match. Qed.

Lemma pretty_N_go_plain (x : N) (s : string) :
  all_chars plain_char s = true ->
  all_chars plain_char (pretty_N_go x s) = true.
Proof.
  revert s. induction (N.lt_wf_0 x) as [x _ IH]; intros s Hs.
  assert (x = 0 \/ 0 < x)%N as [->|Hx] by lia.
  - by rewrite pretty_N_go_0.
  - rewrite pretty_N_go_step by done. apply IH.
    + by apply N.div_lt.
    + cbn [all_chars]. by rewrite pretty_N_char_plain, Hs.
Qed.

Lemma pretty_N_plain (x : N) : all_chars plain_char (pretty x) = true.
Proof.
  unfold pretty, pretty_N. case_decide; [done|].
  by apply pretty_N_go_plain.
Qed.

(** The decimal text of an integer has no underscore. *)
Lemma pretty_Z_plain (z : Z) : all_chars plain_char (pretty z) = true.
Proof.
  destruct z as [|p|p]; [done|exact (pretty_N_plain (Npos p))|].
  change (pretty (Z.neg p)) with ("-" +:+ pretty (Npos p)).
  rewrite all_chars_app. by rewrite pretty_N_plain.
Qed.

(** Up to the first underscore a key is the plant code. *)
Lemma key_split (u u' g g' : string) :
  all_chars plain_char u = true -> all_chars plain_char u' = true ->
  (u +:+ "_") +:+ g = (u' +:+ "_") +:+ g' -> u = u' /\ g = g'.
Proof.
  revert u'. induction u as [|a u IH]; intros [|a' u'] Hu Hu' Heq;
    simpl in *.
  - injection Heq as Heq. split; [reflexivity|exact Heq].
  - injection Heq as <- _. by destruct (all_chars plain_char u').
  - injection Heq as -> _. by destruct (all_chars plain_char u).
  - injection Heq as -> Heq.
    apply andb_prop in Hu as [_ Hu]. apply andb_prop in Hu' as [_ Hu'].
    destruct (IH u' Hu Hu' Heq) as [-> ->]. done.
Qed.

Section Keys.
Context `{Runtime}.

(** X18: where plant codes are integers, the key of a generator determines
    its plant code and its generator id: two rows get one key exactly when
    they agree on both.  With plant codes read as text this is lost: plant
    1_2 with generator 3 and plant 1 with generator 2_3 share the key
    1_2_3. *)
Theorem generator_key_identifies_unit :
  (forall (df : DataFrame) (uuid : Series) (plant_code generator_id : Series)
          (i j : nat) (p p' : Z) (g g' : string),
      generator_uuid df = Ok uuid ->
      data "plant_code" df = [plant_code] ->
      data "generator_id" df = [generator_id] ->
      plant_code !! i = Some (VInt p) ->
      generator_id !! i = Some (VStr g) ->
      plant_code !! j = Some (VInt p') ->
      generator_id !! j = Some (VStr g') ->
      exists k k',
        uuid !! i = Some (VStr k) /\ uuid !! j = Some (VStr k')
        /\ (k = k' <-> p = p' /\ g = g'))
  /\ str_add (str (VStr "1_2") +:+ "_") (VStr "3")
     = str_add (str (VStr "1") +:+ "_") (VStr "2_3").
Proof.
  split; [|reflexivity].
  intros df uuid plant_code generator_id i j p p' g g' Huuid Hpc Hgid
    Hp Hg Hp' Hg'.
  apply generator_uuid_Ok in Huuid as (pc & gid & Hpc' & Hgid' & Hkey).
  rewrite Hpc in Hpc'. rewrite Hgid in Hgid'.
  injection Hpc' as <-. injection Hgid' as <-.
  exists ((str (VInt p) +:+ "_") +:+ g), ((str (VInt p') +:+ "_") +:+ g').
  split; [by apply Hkey|]. split; [by apply Hkey|].
  split.
  - intros Heq. cbn [str] in Heq.
    apply key_split in Heq as [Hpp ->]; [|apply pretty_Z_plain..].
    by apply (inj pretty) in Hpp as ->.
  - by intros [-> ->].
Qed.

End Keys.

(** The two generators of plant 123 in the sample get different keys
    because their ids differ. *)
Lemma generator_key_sample :
  generator_uuid (H := sample_runtime) (operating_frame 2018 operating_sample)
  = Ok [VStr "123_A"; VStr "123_B"]
  /\ exists k k',
       [VStr "123_A"; VStr "123_B"] !! 0%nat = Some (VStr k)
       /\ [VStr "123_A"; VStr "123_B"] !! 1%nat = Some (VStr k')
       /\ (k = k' <-> 123 = 123 /\ "A" = "B").
Proof.
  assert (generator_uuid (H := sample_runtime)
            (operating_frame 2018 operating_sample)
          = Ok [VStr "123_A"; VStr "123_B"]) as Hrun
    by (vm_compute; reflexivity).
  split; [exact Hrun|].
  apply (proj1 (generator_key_identifies_unit (H := sample_runtime))
           (operating_frame 2018 operating_sample)
           [VStr "123_A"; VStr "123_B"]
           [VInt 123; VInt 123] [VStr "A"; VStr "B"] 0%nat 1%nat
           123 123 "A" "B" Hrun);
    vm_compute; reflexivity.
Defined.

(** ** Frames stay rectangular *)

Lemma keep_length {A B} (mask : list bool) (l : list A) (k : list B) :
  length l = length k -> length (keep mask l) = length (keep mask k).
Proof.
  revert l k. induction mask as [|b mask IH]; intros [|x l] [|y k] Hlen;
    cbn [keep length] in *; try done.
  injection Hlen as Hlen. destruct b; cbn [length]; by rewrite (IH l k).
Qed.

Lemma rectangular_data (c : string) (df : DataFrame) (s : Series) :
  rectangular df -> s ∈ data c df -> length s = length (index df).
Proof.
  unfold rectangular, data, select. rewrite Forall_forall.
  intros Hrect ([c' s'] & -> & Hin)%list_elem_of_fmap.
  apply list_elem_of_In, filter_In in Hin as [Hin _].
  apply (Hrect (c', s')). by apply list_elem_of_In.
Qed.

Lemma rectangular_data_1 (c : string) (df : DataFrame) (s : Series) :
  rectangular df -> data c df = [s] -> length s = length (index df).
Proof.
  intros Hrect Hs. apply (rectangular_data c); [done|].
  rewrite Hs. by left.
Qed.

Lemma rectangular_rename (mapper : gmap string string) (df : DataFrame) :
  rectangular df -> rectangular (rename mapper df).
Proof.
  unfold rectangular, rename; cbn [index columns]. intros Hrect.
  apply List.Forall_map. eapply Forall_impl; [exact Hrect|]. by intros [].
Qed.

Lemma rectangular_setitem (c : string) (s : Series) (df : DataFrame) :
  length s = length (index df) ->
  rectangular df -> rectangular (setitem c s df).
Proof.
  unfold rectangular. rewrite setitem_columns, index_setitem.
  intros Hs Hrect. case_bool_decide.
  - apply List.Forall_map. eapply Forall_impl; [exact Hrect|].
    intros col Hcol. by destruct (has_label c col).
  - apply Forall_app. split; [done|]. by repeat constructor.
Qed.

Lemma rectangular_setitem_scalar (c : string) (v : value) (df : DataFrame) :
  rectangular df -> rectangular (setitem_scalar c v df).
Proof. apply rectangular_setitem, length_replicate. Qed.

Lemma rectangular_filter_rows (mask : list bool) (df : DataFrame) :
  rectangular df -> rectangular (filter_rows mask df).
Proof.
  unfold rectangular, filter_rows; cbn [index columns]. intros Hrect.
  apply List.Forall_map. eapply Forall_impl; [exact Hrect|].
  intros [c s] Hs. cbn [fst snd] in *. by apply keep_length.
Qed.

Lemma rectangular_project (cs : list string) (df df' : DataFrame) :
  project cs df = Ok df' -> rectangular df -> rectangular df'.
Proof.
  intros [_ ->]%project_Ok. unfold rectangular; cbn [index columns].
  rewrite !Forall_forall. intros Hrect col Hcol.
  apply list_elem_of_In, in_flat_map in Hcol as (c & _ & Hcol).
  apply filter_In in Hcol as [Hcol _].
  apply Hrect. by apply list_elem_of_In.
Qed.

Lemma rectangular_set_index (c : string) (df df' : DataFrame) :
  set_index c df = Ok df' -> rectangular df -> rectangular df'.
Proof.
  intros (s & Hs & ->)%set_index_Ok Hrect.
  pose proof (rectangular_data_1 _ _ _ Hrect Hs) as Hlen.
  unfold rectangular in *; cbn [index columns].
  rewrite Forall_forall in *. intros col Hcol.
  apply list_elem_of_In, filter_In in Hcol as [Hcol _].
  rewrite Hlen. apply Hrect. by apply list_elem_of_In.
Qed.

Lemma mapM_length {A B} (f : A -> result B) (l : list A) (l' : list B) :
  mapM f l = Ok l' -> length l' = length l.
Proof. intros Hl%mapM_Ok. symmetry. exact (Forall2_length _ _ _ Hl). Qed.

Section Rectangular.
Context `{Runtime}.

Lemma coerce_float_length (s s' : Series) :
  coerce_float s = Ok s' -> length s' = length s.
Proof.
  unfold coerce_float, astype_float. intros ->%mapM_length.
  apply length_map.
Qed.

Lemma coerce_int_length (s s' : Series) :
  coerce_int s = Ok s' -> length s' = length s.
Proof.
  intros Hs%coerce_int_Ok. symmetry. exact (Forall2_length _ _ _ Hs).
Qed.

Lemma generator_uuid_length (df : DataFrame) (uuid : Series) :
  rectangular df -> generator_uuid df = Ok uuid ->
  length uuid = length (index df).
Proof.
  intros Hrect Hrun. unfold generator_uuid in Hrun.
  apply bind_Ok in Hrun as (plant_code & Hpc & Hrun).
  apply bind_Ok in Hrun as (generator_id & Hgid & Hrun).
  apply pick_Ok in Hpc, Hgid. unfold add_series in Hrun.
  apply mapM_length in Hrun. rewrite Hrun.
  rewrite length_zip_with. unfold astype_str. rewrite !length_map.
  rewrite (rectangular_data_1 _ _ _ Hrect Hpc).
  rewrite (rectangular_data_1 _ _ _ Hrect Hgid). lia.
Qed.

Lemma rectangular_coerce_column (c : string) (df df' : DataFrame) :
  coerce_column c df = Ok df' -> rectangular df -> rectangular df'.
Proof.
  intros (s & s' & Hs & Hs' & ->)%coerce_column_Ok Hrect.
  apply rectangular_setitem; [|done].
  rewrite (coerce_int_length _ _ Hs').
  exact (rectangular_data_1 _ _ _ Hrect Hs).
Qed.

(** X19: the pipelines keep frames rectangular.  From a sheet whose columns
    all have one cell per index entry, each of the three returns a table
    whose columns all have one cell per returned row: no assignment, mask
    or key leaves a column shorter or longer than the index. *)
Theorem pipelines_return_rectangular_frames (sheet : DataFrame) :
  rectangular sheet ->
  (forall year out, parse_generators year sheet = Ok out -> rectangular out)
  /\ (forall year out, parse_proposed year sheet = Ok out -> rectangular out)
  /\ (forall year out, parse_retired year sheet = Ok out -> rectangular out).
Proof.
  intros Hsheet.
  assert (forall label batch,
            rectangular (normalize_columns label batch sheet)) as Hframe.
  { intros label batch. unfold normalize_columns.
    by do 2 apply rectangular_rename. }
  repeat apply conj.
  - intros year out Hrun.
    apply parse_generators_Ok in Hrun
      as (uuid & df & pry & pry' & es1 & status & sector & Huuid & Hdf
          & Hkey & _ & Hpry & Hpry' & Hes1 & _ & _ & ->).
    assert (rectangular df) as Hrect.
    { apply (rectangular_project _ _ _ Hdf), rectangular_setitem;
        [|apply Hframe].
      apply generator_uuid_length; [apply Hframe|done]. }
    assert (set_index "generator_uuid" df
            = Ok {| index := uuid;
                    columns :=
                      List.filter
                        (fun col => negb (has_label "generator_uuid" col))
                        (columns df) |}) as Hindexed.
    { apply set_index_Ok. by exists uuid. }
    pose proof (rectangular_set_index _ _ _ Hindexed Hrect) as Hrect'.
    assert (length uuid = length (index df)) as Hlen
      by exact (rectangular_data_1 _ _ _ Hrect Hkey).
    apply rectangular_filter_rows, rectangular_setitem;
      [|apply rectangular_setitem; [|done]].
    + rewrite index_setitem. cbn [index]. unfold replace_mapping.
      rewrite length_map, Hlen.
      exact (rectangular_data_1 _ _ _ Hrect Hes1).
    + cbn [index]. rewrite (coerce_float_length _ _ Hpry'), Hlen.
      exact (rectangular_data_1 _ _ _ Hrect Hpry).
  - intros year out Hrun.
    apply parse_proposed_Ok in Hrun
      as (df & sector & status & es1 & ey & ey' & Hdf & _ & _ & Hes1 & Hey
          & Hey' & ->).
    assert (rectangular df) as Hrect
      by (apply (rectangular_project _ _ _ Hdf), Hframe).
    apply rectangular_setitem; [|apply rectangular_setitem;
                                 [|by apply rectangular_filter_rows]].
    + rewrite index_setitem, index_filter_rows.
      rewrite (coerce_float_length _ _ Hey'). apply keep_length.
      exact (rectangular_data_1 _ _ _ Hrect Hey).
    + rewrite index_filter_rows. unfold replace_mapping.
      rewrite length_map. apply keep_length.
      exact (rectangular_data_1 _ _ _ Hrect Hes1).
  - intros year out Hrun.
    apply parse_retired_Ok in Hrun as (df & Hrows & Hfinal).
    assert (rectangular df) as Hrect.
    { apply retired_rows_Ok in Hrows
        as (fixed & es1 & sector & status & Hfixed & Hes1 & _ & _ & Hdf).
      assert (rectangular fixed) as Hrect.
      { case_bool_decide.
        - apply fixup_pre2001_Ok in Hfixed
            as (nameplate & scaled & Hnp & Hscaled & ->).
          assert (rectangular
                    (rename rename_pre2001
                       (setitem_scalar "sector" (VStr "Electric Utility")
                          (retired_frame year sheet)))) as Hrenamed
            by (apply rectangular_rename, rectangular_setitem_scalar,
                  Hframe).
          apply rectangular_setitem;
            [|by do 4 apply rectangular_setitem_scalar].
          rewrite <- (Forall2_length _ _ _ Hscaled).
          exact (rectangular_data_1 _ _ _ Hrenamed Hnp).
        - injection Hfixed as <-. apply Hframe. }
      apply (rectangular_project _ _ _ Hdf), rectangular_filter_rows,
        rectangular_setitem; [|done].
      unfold replace_mapping. rewrite length_map.
      exact (rectangular_data_1 _ _ _ Hrect Hes1). }
    rewrite final_coercion_unfold in Hfinal.
    apply bind_Ok in Hfinal as (df1 & Hdf1 & Hfinal).
    apply bind_Ok in Hfinal as (df2 & Hdf2 & Hfinal).
    eapply rectangular_coerce_column; [exact Hfinal|].
    eapply rectangular_coerce_column; [exact Hdf2|].
    eapply rectangular_coerce_column; [exact Hdf1|done].
Qed.

End Rectangular.

Lemma pipelines_return_rectangular_frames_sample :
  rectangular retired_sample_2000
  /\ parse_retired (H := sample_runtime) 2000 retired_sample_2000
     = Ok retired_sample_2000_out
  /\ rectangular retired_sample_2000_out.
Proof.
  assert (rectangular retired_sample_2000) as Hsheet
    by (repeat constructor).
  split; [exact Hsheet|].
  assert (parse_retired (H := sample_runtime) 2000 retired_sample_2000
          = Ok retired_sample_2000_out) as Hrun
    by (vm_compute; reflexivity).
  split; [exact Hrun|].
  exact (proj2 (proj2 (pipelines_return_rectangular_frames
                         (H := sample_runtime) retired_sample_2000 Hsheet))
           2000 retired_sample_2000_out Hrun).
Defined.

(** ** The outcome of the closing coercion *)




Section ClosingCoercion.
Context `{Runtime}.



End ClosingCoercion.
